(** * The Seele client (src/client.js): a shallow embedding and its properties

    The client is one JavaScript class, [SeeleClient], whose methods read and
    write the fields of [this], call into sibling modules ([tx], [msg],
    [Hard]) and into [@tendermint/sig], and may throw.  The embedding keeps
    that shape:

    - JavaScript values are the inductive [JsVal]; the operators the source
      applies to them ([!v], [v != null], [v != 'sync'], [String(v)],
      [a + b] on strings, property reads, lodash's [_.get]) are functions
      on [JsVal];
    - a method is a computation in the monad [Js]: it threads a [Store]
      (the fields of [this], the log of calls that left the class, the
      console) and completes normally or by a throw;
    - what the sibling modules answer is a parameter of the development
      ([respond]), a function of the calls made so far. *)

From Stdlib Require Import ZArith List String Ascii Bool Lia DecimalString.
Import ListNotations.
Local Open Scope list_scope.
Local Open Scope string_scope.
Set Warnings "-register-all".

(** ** JavaScript values *)

(** Numbers are the integer-valued ones and [NaN]: the source uses numbers
    only as arguments it tests for truthiness, converts with [String] or
    hands on unread. *)
Inductive JsVal : Type :=
| JUndefined
| JNull
| JBool (b : bool)
| JNum (n : Z)
| JNaN
| JStr (s : string)
| JArr (elems : list JsVal)
| JObj (fields : list (string * JsVal))
| JError (name message : string).

(** How a statement or a call completes: with a value, or by a throw (for an
    [async] function: a promise that resolves or rejects, as its awaiting
    caller sees it). *)
Inductive Completion (A : Type) : Type :=
| Normal (a : A)
| Throw (e : JsVal).
Arguments Normal {A} a.
Arguments Throw {A} e.

Definition is_throw {A : Type} (c : Completion A) : bool :=
  match c with Throw _ => true | Normal _ => false end.

(** [new Error(message)] and the engine's [TypeError]. *)
Definition new_Error (message : string) : JsVal := JError "Error" message.
Definition new_TypeError (message : string) : JsVal := JError "TypeError" message.

(** The characters the source spells as escapes. *)
Definition newline : string := String (ascii_of_nat 10) EmptyString.
Definition dquote : string := String (ascii_of_nat 34) EmptyString.

(** [!!v]: the falsy values are [undefined], [null], [false], [0], [NaN]
    and the empty string. *)
Definition js_truthy (v : JsVal) : bool :=
  match v with
  | JUndefined | JNull | JNaN => false
  | JBool b => b
  | JNum n => negb (n =? 0)%Z
  | JStr s => negb (s =? "")
  | JArr _ | JObj _ | JError _ _ => true
  end.

(** [v != null] (loose): false exactly on [null] and [undefined]. *)
Definition js_neq_null (v : JsVal) : bool :=
  match v with
  | JUndefined | JNull => false
  | _ => true
  end.

Definition Z_to_string (n : Z) : string := NilZero.string_of_int (Z.to_int n).

(** [Error.prototype.toString]. *)
Definition error_to_string (name message : string) : string :=
  if name =? "" then message
  else if message =? "" then name
  else name ++ ": " ++ message.

(** [String(v)], which is also what a template literal and [+] against a
    string do to [v].  An array prints its elements joined by commas, with
    [null] and [undefined] elements printed empty; a plain object prints as
    [[object Object]].  This is the language's conversion on the primitives
    (integers below [10^21] in size print in plain decimal), on arrays and
    on objects with the built-in [toString] and [valueOf]: a [JObj] stands
    for a plain object of data, as a JSON answer or a literal is, and is
    read as having the built-in conversions whatever its entries are named.
    An object of the language may carry conversions of its own, or hide the
    built-in ones behind an entry of their name, and [String] then gives
    what they return or throws a [TypeError]; the model gives no account of
    such objects. *)
Fixpoint js_String (v : JsVal) : string :=
  match v with
  | JUndefined => "undefined"
  | JNull => "null"
  | JBool true => "true"
  | JBool false => "false"
  | JNum n => Z_to_string n
  | JNaN => "NaN"
  | JStr s => s
  | JArr elems =>
      (fix join (l : list JsVal) : string :=
         match l with
         | [] => ""
         | x :: rest =>
             let sx := match x with
                       | JUndefined | JNull => ""
                       | _ => js_String x
                       end in
             match rest with
             | [] => sx
             | _ :: _ => sx ++ "," ++ join rest
             end
         end) elems
  | JObj _ => "[object Object]"
  | JError name message => error_to_string name message
  end.

(** [ToNumber] of a string, on the integers: the empty string is [0], an
    optionally signed run of decimal digits is its value, and anything else
    is not an integer ([None]).  The source compares numbers only with the
    literals ['async'], ['sync'] and ['block'], which are [NaN] under every
    numeric syntax of the language. *)
Definition digit_of_ascii (c : ascii) : option Z :=
  let n := Z.of_nat (nat_of_ascii c) in
  if ((48 <=? n) && (n <=? 57))%Z then Some (n - 48)%Z else None.

Fixpoint digits_to_Z (acc : Z) (s : string) : option Z :=
  match s with
  | EmptyString => Some acc
  | String c rest =>
      match digit_of_ascii c with
      | Some d => digits_to_Z (10 * acc + d) rest
      | None => None
      end
  end.

Definition string_to_Z (s : string) : option Z :=
  match s with
  | EmptyString => Some 0%Z
  | String c rest =>
      if (c =? "-")%char then
        match rest with
        | EmptyString => None
        | _ => option_map Z.opp (digits_to_Z 0 rest)
        end
      else if (c =? "+")%char then
        match rest with
        | EmptyString => None
        | _ => digits_to_Z 0 rest
        end
      else digits_to_Z 0 s
  end.

(** [v == lit] (loose) for a string literal [lit]: strings compare as
    strings, a number or boolean compares with [ToNumber lit], [null] and
    [undefined] equal no string, and an object is first converted to a
    primitive.  That conversion asks [valueOf] first and [toString] second;
    for the objects of [JsVal], which have the built-in [valueOf] (it
    returns the object itself, no primitive), it comes down to [toString].
    For an object with a [valueOf] of its own the comparison and [String]
    can disagree; such objects are not values of [JsVal]. *)
Definition js_eq_str (v : JsVal) (lit : string) : bool :=
  match v with
  | JUndefined | JNull | JNaN => false
  | JStr s => s =? lit
  | JNum n =>
      match string_to_Z lit with
      | Some m => (n =? m)%Z
      | None => false
      end
  | JBool b =>
      match string_to_Z lit with
      | Some m => ((if b then 1 else 0) =? m)%Z
      | None => false
      end
  | JArr _ | JObj _ | JError _ _ => js_String v =? lit
  end.

Definition js_neq_str (v : JsVal) (lit : string) : bool := negb (js_eq_str v lit).

(** A default parameter value applies exactly when the argument is
    [undefined]. *)
Definition default_arg (arg dflt : JsVal) : JsVal :=
  match arg with
  | JUndefined => dflt
  | _ => arg
  end.

(** The values that are no objects. *)
Definition is_primitive (v : JsVal) : bool :=
  match v with
  | JArr _ | JObj _ | JError _ _ => false
  | _ => true
  end.

(** *** Property reads *)

Fixpoint assoc_get (k : string) (fields : list (string * JsVal)) : option JsVal :=
  match fields with
  | [] => None
  | (k', v) :: rest => if k' =? k then Some v else assoc_get k rest
  end.

(** [v[k]] for a [v] that is neither [null] nor [undefined]: an own data
    property of a plain object, the [length] of an array, the [name] and
    [message] of an error; [undefined] otherwise.  Prototype methods and
    array indices are not modelled: the source reads the properties [data],
    [result], [address], [account_number] and [sequence] only, and through
    lodash [node_info], [network], [code] and [raw_log]. *)
Definition js_field (v : JsVal) (k : string) : JsVal :=
  match v with
  | JObj fields =>
      match assoc_get k fields with
      | Some x => x
      | None => JUndefined
      end
  | JArr elems => if k =? "length" then JNum (Z.of_nat (List.length elems)) else JUndefined
  | JError name message =>
      if k =? "name" then JStr name
      else if k =? "message" then JStr message
      else JUndefined
  | _ => JUndefined
  end.

(** [v.k]: reading a property of [null] or [undefined] throws a
    [TypeError]. *)
Definition js_prop (v : JsVal) (k : string) : Completion JsVal :=
  match v with
  | JUndefined | JNull =>
      Throw (new_TypeError ("Cannot read properties of " ++ js_String v
                            ++ " (reading '" ++ k ++ "')"))
  | _ => Normal (js_field v k)
  end.

(** lodash's [_.get(object, path)] for a string [path].  The path is the
    single key [path] when the object has a property of that very name, and
    its dot-separated parts otherwise; the walk stops with [undefined] as
    soon as it stands on [null] or [undefined] with keys left. *)
Fixpoint split_dots (acc : string) (s : string) : list string :=
  match s with
  | EmptyString => [acc]
  | String c rest =>
      if (c =? ".")%char then acc :: split_dots "" rest
      else split_dots (acc ++ String c EmptyString) rest
  end.

Fixpoint baseGet (v : JsVal) (keys : list string) : JsVal :=
  match keys with
  | [] => v
  | k :: rest =>
      match v with
      | JUndefined | JNull => JUndefined
      | _ => baseGet (js_field v k) rest
      end
  end.

Definition has_own (v : JsVal) (k : string) : bool :=
  match v with
  | JObj fields =>
      match assoc_get k fields with
      | Some _ => true
      | None => false
      end
  | _ => false
  end.

Definition lodash_get (v : JsVal) (path : string) : JsVal :=
  match v with
  | JUndefined | JNull => JUndefined
  | _ => if has_own v path then js_field v path else baseGet v (split_dots "" path)
  end.

(** ** The client's state and its surroundings *)

(** The constants at the head of the source file. *)
Definition SEELE_PREFIX : string := "seele".
Definition DERIVATION_PATH : string := "m/44'/513'/0'/0/0".
Definition DERIVATION_PATH_LEGACY : string := "m/44'/118'/0'/0/0".
Definition DEFAULT_FEE : JsVal :=
  JObj [("amount", JArr []); ("gas", JStr (js_String (JNum 300000)))].

Module api.
Definition txs : string := "/txs".
Definition nodeInfo : string := "/node_info".
Definition getBlock : string := "/blocks".
Definition getLatestBlock : string := "/blocks/latest".
Definition getLatestValidatorSet : string := "/validatorsets/latest".
Definition getValidatorSet : string := "/validatorsets/".
Definition getAccount : string := "/auth/accounts".
Definition getBalances : string := "/bank/balances".
Definition getSupply : string := "/supply/total".
End api.

(** A call that leaves the class, with its arguments as passed.  [tx], [msg]
    and [Hard] are sibling modules and [sig] is [@tendermint/sig]; none of
    them is part of the file.  [new Hard(this)] receives the client itself,
    which is not a value of [JsVal]; it is taken to keep the reference
    without writing to the client's fields. *)
Inductive ExtCall : Type :=
| tx_getTx (path base timeout : JsVal)
| tx_loadMetaData (address base : JsVal)
| tx_signTx (rawTx signInfo wallet : JsVal)
| tx_broadcastTx (signedTx base mode : JsVal)
| msg_cosmos_newStdTx (msgs fee : JsVal)
| msg_cosmos_newMsgSend (sender recipient coins : JsVal)
| sig_createWalletFromMnemonic (mnemonic password prefix path : JsVal)
| new_Hard.

(** The calls that go to the node. *)
Definition is_network_call (c : ExtCall) : bool :=
  match c with
  | tx_getTx _ _ _ | tx_loadMetaData _ _ | tx_broadcastTx _ _ _ => true
  | _ => false
  end.

Definition is_node_info_query (c : ExtCall) : bool :=
  match c with
  | tx_getTx (JStr p) _ _ => p =? api.nodeInfo
  | _ => false
  end.

Definition is_loadMetaData (c : ExtCall) : bool :=
  match c with
  | tx_loadMetaData _ _ => true
  | _ => false
  end.

(** The fields a [SeeleClient] object carries; a field never assigned reads
    [undefined]. *)
Record SeeleClient : Type := mkClient {
  baseURI : JsVal;
  broadcastMode : JsVal;
  hard : JsVal;
  chainID : JsVal;
  accNum : JsVal;
  wallet : JsVal
}.

Definition blank : SeeleClient :=
  mkClient JUndefined JUndefined JUndefined JUndefined JUndefined JUndefined.

Definition set_baseURI (v : JsVal) (c : SeeleClient) : SeeleClient :=
  mkClient v (broadcastMode c) (hard c) (chainID c) (accNum c) (wallet c).
Definition set_broadcastMode (v : JsVal) (c : SeeleClient) : SeeleClient :=
  mkClient (baseURI c) v (hard c) (chainID c) (accNum c) (wallet c).
Definition set_hard (v : JsVal) (c : SeeleClient) : SeeleClient :=
  mkClient (baseURI c) (broadcastMode c) v (chainID c) (accNum c) (wallet c).
Definition set_chainID (v : JsVal) (c : SeeleClient) : SeeleClient :=
  mkClient (baseURI c) (broadcastMode c) (hard c) v (accNum c) (wallet c).
Definition set_accNum (v : JsVal) (c : SeeleClient) : SeeleClient :=
  mkClient (baseURI c) (broadcastMode c) (hard c) (chainID c) v (wallet c).
Definition set_wallet (v : JsVal) (c : SeeleClient) : SeeleClient :=
  mkClient (baseURI c) (broadcastMode c) (hard c) (chainID c) (accNum c) v.

(** What lies outside the client: the calls that left the class so far, in
    order, and the lines written to the console. *)
Record World : Type := mkWorld {
  calls : list ExtCall;
  console : list string
}.

Record Store : Type := mkStore {
  this : SeeleClient;
  world : World
}.

(** ** The monad of method bodies *)

Definition Js (A : Type) : Type := Store -> Completion A * Store.

Definition pure {A : Type} (a : A) : Js A := fun st => (Normal a, st).

Definition throw {A : Type} (e : JsVal) : Js A := fun st => (Throw e, st).

Definition lift {A : Type} (c : Completion A) : Js A := fun st => (c, st).

Definition bind {A B : Type} (m : Js A) (k : A -> Js B) : Js B :=
  fun st =>
    match m st with
    | (Normal a, st') => k a st'
    | (Throw e, st') => (Throw e, st')
    end.

(** [try { body } catch (e) { handler }]. *)
Definition try_catch {A : Type} (body : Js A) (handler : JsVal -> Js A) : Js A :=
  fun st =>
    match body st with
    | (Normal a, st') => (Normal a, st')
    | (Throw e, st') => handler e st'
    end.

Definition get_this : Js SeeleClient := fun st => (Normal (this st), st).

Definition modify_this (f : SeeleClient -> SeeleClient) : Js unit :=
  fun st => (Normal tt, mkStore (f (this st)) (world st)).

Definition console_log (line : string) : Js unit :=
  fun st =>
    (Normal tt,
     mkStore (this st) (mkWorld (calls (world st)) (console (world st) ++ [line]))).

Declare Scope js_scope.
Delimit Scope js_scope with js.
Notation "x <- m ;; k" := (bind m (fun x => k))
  (at level 100, m at next level, right associativity) : js_scope.
Notation "m ;; k" := (bind m (fun _ => k))
  (at level 100, right associativity) : js_scope.
Local Open Scope js_scope.

(** ** The class *)

Section Client.

(** What a call that leaves the class completes with, given the calls made
    before it.  Every theorem of the section holds for every such
    surrounding. *)
Variable respond : list ExtCall -> ExtCall -> Completion JsVal.

(** Make the call (awaiting it where the source does) and log it. *)
Definition call (c : ExtCall) : Js JsVal :=
  fun st =>
    (respond (calls (world st)) c,
     mkStore (this st) (mkWorld (calls (world st) ++ [c]) (console (world st)))).

Definition constructor (server : JsVal) : Js unit :=
  if negb (js_truthy server) then
    throw (new_Error "Seele server should not be null")
  else
    modify_this (set_baseURI server) ;;
    modify_this (set_broadcastMode (JStr "sync")) ;;
    h <- call new_Hard ;;
    modify_this (set_hard h).

(** [new SeeleClient(server)]: the constructor runs on a fresh object, which
    is the result unless the constructor throws. *)
Definition new_SeeleClient (server : JsVal) (w : World) : Completion SeeleClient * World :=
  match constructor server (mkStore blank w) with
  | (Normal _, st) => (Normal (this st), world st)
  | (Throw e, st) => (Throw e, world st)
  end.

(** A method call is a computation in [Js]: it runs from its first statement
    to its completion, and the calls of a session follow one another.  In
    the source [initChain] is [async], and between its test of [chainID]
    and its write of it stands an [await]; [initChain_begin] and
    [initChain_resume] below are the two halves, for calls that overlap. *)
Definition initChain : Js SeeleClient :=
  c <- get_this ;;
  (if negb (js_truthy (chainID c)) then
     res <- call (tx_getTx (JStr api.nodeInfo) (baseURI c) JUndefined) ;;
     modify_this (set_chainID (lodash_get res "data.node_info.network"))
   else pure tt) ;;
  get_this.

(** [initChain] up to its [await]: the test of [chainID] and, when it is
    unset, the request, whose answer is pending. *)
Definition initChain_begin (st : Store) : option (Completion JsVal) * Store :=
  if negb (js_truthy (chainID (this st))) then
    (Some (respond (calls (world st))
                   (tx_getTx (JStr api.nodeInfo) (baseURI (this st)) JUndefined)),
     mkStore (this st)
             (mkWorld (calls (world st)
                       ++ [tx_getTx (JStr api.nodeInfo) (baseURI (this st)) JUndefined])
                      (console (world st))))
  else (None, st).

(** [initChain] from its [await] on, once the pending answer is in. *)
Definition initChain_resume (pending : option (Completion JsVal)) : Js SeeleClient :=
  match pending with
  | Some (Normal res) =>
      modify_this (set_chainID (lodash_get res "data.node_info.network")) ;;
      get_this
  | Some (Throw e) => throw e
  | None => get_this
  end.

Definition setChainID (chainID : JsVal) : Js SeeleClient :=
  if negb (js_truthy chainID) then
    throw (new_Error "chainID cannot be undefined")
  else
    modify_this (set_chainID chainID) ;;
    get_this.

Definition setAccountNumber (accNum : JsVal) : Js SeeleClient :=
  if negb (js_truthy accNum) then
    throw (new_Error "account number cannot be undefined")
  else
    modify_this (set_accNum (JStr (js_String accNum))) ;;
    get_this.

(** [new Error(a, b, c)] keeps its first argument as the message. *)
Definition setBroadcastMode (mode : JsVal) : Js SeeleClient :=
  if negb (js_truthy mode) then
    throw (new_Error "broadcast mode cannot be undefined")
  else if js_neq_str mode "async" && js_neq_str mode "sync" && js_neq_str mode "block" then
    throw (new_Error "invalid broadcast mode ")
  else
    modify_this (set_broadcastMode (JStr (js_String mode))) ;;
    get_this.

Definition setWallet (mnemonic password legacy : JsVal) : Js SeeleClient :=
  let password := default_arg password (JStr "") in
  let legacy := default_arg legacy (JBool false) in
  if negb (js_truthy mnemonic) then
    throw (new_Error "mnemonic cannot be undefined")
  else
    let derivationPath :=
      if js_truthy legacy then DERIVATION_PATH_LEGACY else DERIVATION_PATH in
    w <- call (sig_createWalletFromMnemonic
                 mnemonic password (JStr SEELE_PREFIX) (JStr derivationPath)) ;;
    modify_this (set_wallet w) ;;
    get_this.

Definition mkSignInfo (chain_id account_number sequence : JsVal) : JsVal :=
  JObj [("chain_id", chain_id);
        ("account_number", account_number);
        ("sequence", sequence)].

Definition prepareSignInfo (sequence : JsVal) : Js JsVal :=
  c <- get_this ;;
  if js_truthy sequence && js_neq_null (accNum c) then
    pure (mkSignInfo (chainID c)
                     (JStr (js_String (accNum c)))
                     (JStr (js_String sequence)))
  else
    address <- lift (js_prop (wallet c) "address") ;;
    meta <- call (tx_loadMetaData address (baseURI c)) ;;
    c <- get_this ;;
    account_number <-
      (if js_neq_null (accNum c) then pure (JStr (js_String (accNum c)))
       else n <- lift (js_prop meta "account_number") ;;
            pure (JStr (js_String n))) ;;
    sequence <-
      (if js_truthy sequence then pure (JStr (js_String sequence))
       else s <- lift (js_prop meta "sequence") ;;
            pure (JStr (js_String s))) ;;
    pure (mkSignInfo (chainID c) account_number sequence).

Definition sendTx (msgs fee sequence : JsVal) : Js JsVal :=
  rawTx <- call (msg_cosmos_newStdTx msgs fee) ;;
  signInfo <- prepareSignInfo sequence ;;
  c <- get_this ;;
  signedTx <- call (tx_signTx rawTx signInfo (wallet c)) ;;
  c <- get_this ;;
  call (tx_broadcastTx signedTx (baseURI c) (broadcastMode c)).

(** The queries share one shape: [if (res && res.data) return ...], and
    [undefined] when the test fails. *)
Definition return_data (res : JsVal) : Js JsVal :=
  if js_truthy res && js_truthy (js_field res "data") then lift (js_prop res "data")
  else pure JUndefined.

Definition return_data_result (res : JsVal) : Js JsVal :=
  if js_truthy res && js_truthy (js_field res "data") then
    data <- lift (js_prop res "data") ;;
    lift (js_prop data "result")
  else pure JUndefined.

Definition getLatestBlock (timeout : JsVal) : Js JsVal :=
  let timeout := default_arg timeout (JNum 2000) in
  c <- get_this ;;
  res <- call (tx_getTx (JStr api.getLatestBlock) (baseURI c) timeout) ;;
  return_data res.

Definition getBlock (height timeout : JsVal) : Js JsVal :=
  let timeout := default_arg timeout (JNum 2000) in
  let path := api.getBlock ++ "/" ++ js_String height in
  c <- get_this ;;
  res <- call (tx_getTx (JStr path) (baseURI c) timeout) ;;
  return_data res.

Definition getLatestValidatorSet (timeout : JsVal) : Js JsVal :=
  let timeout := default_arg timeout (JNum 2000) in
  c <- get_this ;;
  res <- call (tx_getTx (JStr api.getLatestValidatorSet) (baseURI c) timeout) ;;
  return_data res.

Definition getValidatorSet (height timeout : JsVal) : Js JsVal :=
  let timeout := default_arg timeout (JNum 2000) in
  let path := api.getValidatorSet ++ "/" ++ js_String height in
  c <- get_this ;;
  res <- call (tx_getTx (JStr path) (baseURI c) timeout) ;;
  return_data res.

Definition checkTxHash (txHash timeout : JsVal) : Js JsVal :=
  let timeout := default_arg timeout (JNum 10000) in
  let path := api.txs ++ "/" ++ js_String txHash in
  c <- get_this ;;
  res <- try_catch
           (call (tx_getTx (JStr path) (baseURI c) timeout))
           (fun e => throw (new_Error ("tx not found: " ++ js_String e))) ;;
  try_catch
    (if js_truthy (lodash_get res "data.code") then
       throw (new_Error ("tx not accepted by chain: " ++ dquote
                         ++ js_String (lodash_get res "data.raw_log") ++ dquote))
     else pure tt)
    (fun e => console_log (newline ++ js_String e)) ;;
  lift (js_prop res "data").

Definition getAccount (address timeout : JsVal) : Js JsVal :=
  let timeout := default_arg timeout (JNum 2000) in
  let path := api.getAccount ++ "/" ++ js_String address in
  c <- get_this ;;
  res <- call (tx_getTx (JStr path) (baseURI c) timeout) ;;
  return_data_result res.

Definition getBalances (address timeout : JsVal) : Js JsVal :=
  let timeout := default_arg timeout (JNum 2000) in
  let path := api.getBalances ++ "/" ++ js_String address in
  c <- get_this ;;
  res <- call (tx_getTx (JStr path) (baseURI c) timeout) ;;
  return_data_result res.

Definition getSupply (timeout : JsVal) : Js JsVal :=
  let timeout := default_arg timeout (JNum 2000) in
  c <- get_this ;;
  res <- call (tx_getTx (JStr api.getSupply) (baseURI c) timeout) ;;
  return_data_result res.

Definition getSupplyOf (denom timeout : JsVal) : Js JsVal :=
  let timeout := default_arg timeout (JNum 2000) in
  let path := api.getSupply ++ "/" ++ js_String denom in
  c <- get_this ;;
  res <- call (tx_getTx (JStr path) (baseURI c) timeout) ;;
  return_data_result res.

Definition transfer (recipient coins fee sequence : JsVal) : Js JsVal :=
  let fee := default_arg fee DEFAULT_FEE in
  let sequence := default_arg sequence JNull in
  c <- get_this ;;
  address <- lift (js_prop (wallet c) "address") ;;
  msgSend <- call (msg_cosmos_newMsgSend address recipient coins) ;;
  sendTx (JArr [msgSend]) fee sequence.

(** *** Sessions

    A caller drives a client by a sequence of method calls, going on after a
    call that threw if it so wishes.  [Op] lists the public methods other
    than [setBroadcastMode]. *)
Inductive Op : Type :=
| OpInitChain
| OpSetChainID (chainID : JsVal)
| OpSetAccountNumber (accNum : JsVal)
| OpSetWallet (mnemonic password legacy : JsVal)
| OpPrepareSignInfo (sequence : JsVal)
| OpSendTx (msgs fee sequence : JsVal)
| OpGetLatestBlock (timeout : JsVal)
| OpGetBlock (height timeout : JsVal)
| OpGetLatestValidatorSet (timeout : JsVal)
| OpGetValidatorSet (height timeout : JsVal)
| OpCheckTxHash (txHash timeout : JsVal)
| OpGetAccount (address timeout : JsVal)
| OpGetBalances (address timeout : JsVal)
| OpGetSupply (timeout : JsVal)
| OpGetSupplyOf (denom timeout : JsVal)
| OpTransfer (recipient coins fee sequence : JsVal).

(** The store a computation leaves, whatever it completed with. *)
Definition exec {A : Type} (m : Js A) (st : Store) : Store := snd (m st).

Definition run_op (op : Op) : Store -> Store :=
  match op with
  | OpInitChain => exec initChain
  | OpSetChainID v => exec (setChainID v)
  | OpSetAccountNumber v => exec (setAccountNumber v)
  | OpSetWallet m p l => exec (setWallet m p l)
  | OpPrepareSignInfo s => exec (prepareSignInfo s)
  | OpSendTx msgs fee s => exec (sendTx msgs fee s)
  | OpGetLatestBlock t => exec (getLatestBlock t)
  | OpGetBlock h t => exec (getBlock h t)
  | OpGetLatestValidatorSet t => exec (getLatestValidatorSet t)
  | OpGetValidatorSet h t => exec (getValidatorSet h t)
  | OpCheckTxHash h t => exec (checkTxHash h t)
  | OpGetAccount a t => exec (getAccount a t)
  | OpGetBalances a t => exec (getBalances a t)
  | OpGetSupply t => exec (getSupply t)
  | OpGetSupplyOf d t => exec (getSupplyOf d t)
  | OpTransfer r c f s => exec (transfer r c f s)
  end.

Definition run_ops (ops : list Op) (st : Store) : Store :=
  fold_left (fun acc op => run_op op acc) ops st.

End Client.

(** ** Measures on the call log *)

Definition count_calls (p : ExtCall -> bool) (l : list ExtCall) : nat :=
  List.length (filter p l).

(** The calls to the message and envelope builders of [msg.cosmos]. *)
Definition is_builder_call (c : ExtCall) : bool :=
  match c with
  | msg_cosmos_newStdTx _ _ | msg_cosmos_newMsgSend _ _ _ => true
  | _ => false
  end.

(** A broadcast in the log carries the mode [b]; any other call passes. *)
Definition broadcasts_with (b : JsVal) (c : ExtCall) : Prop :=
  match c with
  | tx_broadcastTx _ _ mode => mode = b
  | _ => True
  end.

(** The store with the client's [chainID] replaced. *)
Definition with_chainID (v : JsVal) (st : Store) : Store :=
  mkStore (set_chainID v (this st)) (world st).

(** The store after one more logged call. *)
Definition logged (c : ExtCall) (st : Store) : Store :=
  mkStore (this st) (mkWorld (calls (world st) ++ [c]) (console (world st))).

(** The line [checkTxHash] writes for a transaction the chain rejected. *)
Definition rejection_line (res : JsVal) : string :=
  newline ++ js_String (new_Error ("tx not accepted by chain: " ++ dquote
                                   ++ js_String (lodash_get res "data.raw_log") ++ dquote)).

(** ** What a method may write and which calls it may make

    [emits Inv P m]: run from a store whose client satisfies [Inv], the
    computation [m] leaves a client that satisfies [Inv] again, and the calls
    it adds to the log (it never removes any) all satisfy [P]; this holds
    whichever way [m] completes. *)
Definition emits (Inv : SeeleClient -> Prop) (P : ExtCall -> Prop)
           {A : Type} (m : Js A) : Prop :=
  forall st,
    Inv (this st) ->
    Inv (this (exec m st))
    /\ exists evs,
         calls (world (exec m st)) = (calls (world st) ++ evs)%list
         /\ Forall P evs.

(** ** Concrete surroundings

    A node and libraries that answer as a healthy deployment would, and a
    node whose node-info answer carries no network name; they serve the
    worked examples. *)

Definition demo_wallet : JsVal :=
  JObj [("privateKey", JStr "<bytes>"); ("publicKey", JStr "<bytes>");
        ("address", JStr "seele1qypqxpq9qcrsszg2pvxq6rs0zqg3yyc5")].

Definition demo_node (history : list ExtCall) (c : ExtCall) : Completion JsVal :=
  match c with
  | tx_getTx (JStr p) _ _ =>
      if p =? api.nodeInfo then
        Normal (JObj [("data", JObj [("node_info", JObj [("network", JStr "seele-testnet-1")])])])
      else if p =? "/txs/A0" then
        Normal (JObj [("data", JObj [("txhash", JStr "A0"); ("code", JNum 0)])])
      else if p =? "/txs/B5" then
        Normal (JObj [("data", JObj [("txhash", JStr "B5"); ("code", JNum 5);
                                     ("raw_log", JStr "out of gas")])])
      else Throw (new_Error "Request failed with status code 404")
  | tx_getTx _ _ _ => Throw (new_Error "Request failed with status code 404")
  | tx_loadMetaData _ _ =>
      Normal (JObj [("account_number", JStr "7"); ("sequence", JStr "12")])
  | tx_signTx rawTx signInfo _ =>
      Normal (JObj [("tx", rawTx); ("signed_with", signInfo)])
  | tx_broadcastTx _ _ _ =>
      Normal (JObj [("data", JObj [("txhash", JStr "C1"); ("height", JStr "0")])])
  | msg_cosmos_newStdTx msgs fee =>
      Normal (JObj [("type", JStr "cosmos-sdk/StdTx");
                    ("value", JObj [("msg", msgs); ("fee", fee);
                                    ("signatures", JNull); ("memo", JStr "")])])
  | msg_cosmos_newMsgSend sender recipient coins =>
      Normal (JObj [("type", JStr "cosmos-sdk/MsgSend");
                    ("value", JObj [("from_address", sender);
                                    ("to_address", recipient);
                                    ("amount", coins)])])
  | sig_createWalletFromMnemonic _ _ _ _ => Normal demo_wallet
  | new_Hard => Normal (JObj [])
  end.

(** As [demo_node], but the node-info answer has no [network] entry. *)
Definition nameless_node (history : list ExtCall) (c : ExtCall) : Completion JsVal :=
  match c with
  | tx_getTx _ _ _ => Normal (JObj [("data", JObj [("node_info", JObj [])])])
  | _ => demo_node history c
  end.

Definition empty_world : World := mkWorld [] [].

(** The store of a client just built with [new SeeleClient(server)]; the
    blank object stands in when the constructor throws. *)
Definition fresh (respond : list ExtCall -> ExtCall -> Completion JsVal)
           (server : JsVal) : Store :=
  match new_SeeleClient respond server empty_world with
  | (Normal c, w) => mkStore c w
  | (Throw _, w) => mkStore blank w
  end.

Definition demo_url : JsVal := JStr "http://localhost:1317".

Definition demo_coins : JsVal :=
  JArr [JObj [("denom", JStr "seele"); ("amount", JStr "1000")]].

Definition demo_mnemonic : JsVal := JStr "abandon ability able".

(** A client with a wallet and the account number set by hand, and no chain
    ID yet: neither [initChain] nor [setChainID] has run. *)
Definition demo_unset : Store :=
  exec (setAccountNumber (JStr "5"))
       (exec (setWallet demo_node demo_mnemonic JUndefined JUndefined)
             (fresh demo_node demo_url)).

(** The same with the chain ID set by hand as well. *)
Definition demo_manual : Store :=
  exec (setChainID (JStr "seele-1")) demo_unset.

(** A client with a wallet and a chain ID set by hand, and no account
    number override. *)
Definition demo_ready : Store :=
  exec (setChainID (JStr "seele-1"))
       (exec (setWallet demo_node demo_mnemonic JUndefined JUndefined)
             (fresh demo_node demo_url)).

Definition demo_address : JsVal := JStr "seele1qypqxpq9qcrsszg2pvxq6rs0zqg3yyc5".

Definition demo_recipient : JsVal := JStr "seele1zg69v7ys40x77y352eufp27daufrg4nc".

Definition demo_fee : JsVal :=
  JObj [("amount", demo_coins); ("gas", JStr "200000")].

Definition demo_msgSend : JsVal :=
  JObj [("type", JStr "cosmos-sdk/MsgSend");
        ("value", JObj [("from_address", demo_address);
                        ("to_address", demo_recipient);
                        ("amount", demo_coins)])].

(** A session on a new client: a wallet, a chain ID, a transfer. *)
Definition demo_session : list Op :=
  [OpSetWallet demo_mnemonic JUndefined JUndefined;
   OpInitChain;
   OpTransfer demo_recipient demo_coins JUndefined JUndefined].

Definition is_signTx (c : ExtCall) : bool :=
  match c with
  | tx_signTx _ _ _ => true
  | _ => false
  end.

(** A signing call whose SignInfo carries no chain ID. *)
Definition signs_without_chainID (c : ExtCall) : bool :=
  match c with
  | tx_signTx _ signInfo _ => negb (js_neq_null (js_field signInfo "chain_id"))
  | _ => false
  end.

(** ** Sessions over every public method

    [Call] adds [setBroadcastMode] to the methods of [Op]. *)
Inductive Call : Type :=
| PlainOp (op : Op)
| OpSetBroadcastMode (mode : JsVal).

Definition run_call (respond : list ExtCall -> ExtCall -> Completion JsVal)
           (c : Call) : Store -> Store :=
  match c with
  | PlainOp op => run_op respond op
  | OpSetBroadcastMode mode => exec (setBroadcastMode mode)
  end.

Definition run_calls (respond : list ExtCall -> ExtCall -> Completion JsVal)
           (cs : list Call) (st : Store) : Store :=
  fold_left (fun acc c => run_call respond c acc) cs st.

(** The methods that only read the client: all but [initChain] and the
    setters. *)
Definition is_reader (op : Op) : bool :=
  match op with
  | OpInitChain | OpSetChainID _ | OpSetAccountNumber _ | OpSetWallet _ _ _ => false
  | _ => true
  end.

(** The value is one of the three mode names, as a string. *)
Definition is_mode_name (v : JsVal) : Prop :=
  v = JStr "async" \/ v = JStr "sync" \/ v = JStr "block".

Definition broadcasts_in_a_mode (c : ExtCall) : Prop :=
  match c with
  | tx_broadcastTx _ _ mode => is_mode_name mode
  | _ => True
  end.

(** The sessions in which [setBroadcastMode] is given strings, the type its
    parameter is documented with. *)
Definition string_modes (c : Call) : bool :=
  match c with
  | OpSetBroadcastMode (JStr _) => true
  | OpSetBroadcastMode _ => false
  | PlainOp _ => true
  end.

(** The node a call is addressed to, for the calls that go to one. *)
Definition base_of (c : ExtCall) : option JsVal :=
  match c with
  | tx_getTx _ base _ | tx_loadMetaData _ base | tx_broadcastTx _ base _ => Some base
  | _ => None
  end.

Definition goes_to (b : JsVal) (c : ExtCall) : Prop :=
  match base_of c with
  | Some base => base = b
  | None => True
  end.

(** What a call made by a method of the client [c] takes from [c]: the node
    address, the broadcast mode, the wallet; the wallet derivation takes the
    fixed prefix, and no method builds a [Hard]. *)
Definition sent_by (c : SeeleClient) (call : ExtCall) : Prop :=
  match call with
  | tx_getTx _ base _ => base = baseURI c
  | tx_loadMetaData _ base => base = baseURI c
  | tx_broadcastTx _ base mode => base = baseURI c /\ mode = broadcastMode c
  | tx_signTx _ _ w => w = wallet c
  | sig_createWalletFromMnemonic _ _ prefix _ => prefix = JStr SEELE_PREFIX
  | msg_cosmos_newStdTx _ _ | msg_cosmos_newMsgSend _ _ _ => True
  | new_Hard => False
  end.

Definition is_broadcastTx (c : ExtCall) : bool :=
  match c with
  | tx_broadcastTx _ _ _ => true
  | _ => false
  end.

Definition is_getTx (c : ExtCall) : bool :=
  match c with
  | tx_getTx _ _ _ => true
  | _ => false
  end.

(** What the block and validator queries hand back of an answer. *)
Definition data_of (res : JsVal) : JsVal :=
  if js_truthy res && js_truthy (js_field res "data") then js_field res "data"
  else JUndefined.

(** What the account, balance and supply queries hand back of an answer. *)
Definition result_of (res : JsVal) : JsVal :=
  if js_truthy res && js_truthy (js_field res "data")
  then js_field (js_field res "data") "result"
  else JUndefined.

(** What a query method leaves and completes with, for a method that asks
    for [path] and hands back [unwrap] of the answer: one call, a transport
    error passed on as it is. *)
Definition query_outcome (respond : list ExtCall -> ExtCall -> Completion JsVal)
           (path : string) (timeout : JsVal) (unwrap : JsVal -> JsVal)
           (st : Store) : Completion JsVal * Store :=
  let q := tx_getTx (JStr path) (baseURI (this st)) (default_arg timeout (JNum 2000)) in
  (match respond (calls (world st)) q with
   | Normal res => Normal (unwrap res)
   | Throw e => Throw e
   end,
   logged q st).

(** A node with unusual answers to hash lookups: a result code that is the
    string ["0"], an answer without a result code, and an answer that is
    [null]. *)
Definition odd_node (history : list ExtCall) (c : ExtCall) : Completion JsVal :=
  match c with
  | tx_getTx (JStr p) _ _ =>
      if p =? "/txs/S0" then
        Normal (JObj [("data", JObj [("txhash", JStr "S0"); ("code", JStr "0")])])
      else if p =? "/txs/OK" then
        Normal (JObj [("data", JObj [("txhash", JStr "OK"); ("height", JStr "7")])])
      else if p =? "/blocks/latest" then
        Normal (JObj [("status", JNum 200)])
      else Normal JNull
  | _ => demo_node history c
  end.

(** The sessions in which [setChainID] is never called. *)
Definition no_setChainID (c : Call) : bool :=
  match c with
  | PlainOp (OpSetChainID _) => false
  | _ => true
  end.

(** The computation never writes to the console. *)
Definition quiet {A : Type} (m : Js A) : Prop :=
  forall st, console (world (exec m st)) = console (world st).

Definition is_checkTxHash (c : Call) : bool :=
  match c with
  | PlainOp (OpCheckTxHash _ _) => true
  | _ => false
  end.

(** A node that cannot be reached: every request to it throws. *)
Definition down_node (history : list ExtCall) (c : ExtCall) : Completion JsVal :=
  match c with
  | tx_getTx _ _ _ | tx_loadMetaData _ _ | tx_broadcastTx _ _ _ =>
      Throw (new_Error "connect ECONNREFUSED 127.0.0.1:1317")
  | _ => demo_node history c
  end.

(** A session that switches the mode, by a one-element array, and then
    transfers. *)
Definition demo_session_block : list Call :=
  [PlainOp (OpSetWallet demo_mnemonic JUndefined JUndefined);
   OpSetBroadcastMode (JArr [JStr "block"]);
   PlainOp OpInitChain;
   PlainOp (OpTransfer demo_recipient demo_coins JUndefined JUndefined)].

(** A session that asks for a mode that is none, and then for one. *)
Definition demo_session_async : list Call :=
  [PlainOp (OpSetWallet demo_mnemonic JUndefined JUndefined);
   OpSetBroadcastMode (JStr "fast");
   OpSetBroadcastMode (JStr "async");
   PlainOp OpInitChain;
   PlainOp (OpTransfer demo_recipient demo_coins JUndefined JUndefined)].

(** A session of reads on a client that is set up. *)
Definition demo_reads : list Op :=
  [OpTransfer demo_recipient demo_coins JUndefined JUndefined;
   OpCheckTxHash (JStr "B5") JUndefined;
   OpGetBlock (JNum 12) JUndefined;
   OpGetAccount demo_address (JNum 500)].

Definition no_address_error : JsVal :=
  new_TypeError "Cannot read properties of undefined (reading 'address')".

(** ** Properties *)

Ltac js_unfold :=
  unfold bind, pure, throw, lift, get_this, modify_this, call, try_catch,
    console_log, logged, with_chainID, exec in *;
  cbn [fst snd this world calls console baseURI broadcastMode hard chainID
       accNum wallet set_baseURI set_broadcastMode set_hard set_chainID
       set_accNum set_wallet] in *.

(** *** The value layer at work *)

Example js_String_array :
  js_String (JArr [JStr "a"; JNull; JNum 12; JArr [JBool true; JUndefined]]) = "a,,12,true,".
Proof. reflexivity. Qed.

Example js_String_negative : js_String (JNum (-300000)) = "-300000".
Proof. reflexivity. Qed.

Example lodash_get_network :
  lodash_get (JObj [("data", JObj [("node_info", JObj [("network", JStr "seele-1")])])])
             "data.node_info.network" = JStr "seele-1".
Proof. reflexivity. Qed.

Example lodash_get_missing :
  lodash_get (JObj [("data", JNull)]) "data.node_info.network" = JUndefined.
Proof. reflexivity. Qed.

Example array_equals_its_string : js_eq_str (JArr [JStr "sync"]) "sync" = true.
Proof. reflexivity. Qed.

Section ClientFacts.

Variable respond : list ExtCall -> ExtCall -> Completion JsVal.

(** *** Facts about values *)

Lemma js_prop_defined (v : JsVal) (k : string) :
  js_neq_null v = true -> js_prop v k = Normal (js_field v k).
Proof. destruct v; simpl; intros H; try reflexivity; discriminate H. Qed.

Lemma lodash_get_undefined (v : JsVal) (path : string) :
  js_neq_null v = false -> lodash_get v path = JUndefined.
Proof. destruct v; simpl; intros H; try reflexivity; discriminate H. Qed.

Lemma lodash_get_found (v : JsVal) (path : string) :
  lodash_get v path <> JUndefined -> js_neq_null v = true.
Proof.
  intros H. destruct (js_neq_null v) eqn:E; [reflexivity|].
  exfalso. apply H. now apply lodash_get_undefined.
Qed.

(** *** prepareSignInfo *)

Lemma prepareSignInfo_local (sequence : JsVal) (st : Store) :
  js_truthy sequence && js_neq_null (accNum (this st)) = true ->
  prepareSignInfo respond sequence st =
    (Normal (mkSignInfo (chainID (this st))
                        (JStr (js_String (accNum (this st))))
                        (JStr (js_String sequence))),
     st).
Proof.
  intros H. unfold prepareSignInfo. js_unfold. rewrite H. reflexivity.
Qed.

Lemma prepareSignInfo_fetched (sequence : JsVal) (st : Store) (address meta : JsVal) :
  js_truthy sequence && js_neq_null (accNum (this st)) = false ->
  js_prop (wallet (this st)) "address" = Normal address ->
  respond (calls (world st)) (tx_loadMetaData address (baseURI (this st))) = Normal meta ->
  js_neq_null meta = true ->
  prepareSignInfo respond sequence st =
    (Normal (mkSignInfo
               (chainID (this st))
               (JStr (if js_neq_null (accNum (this st))
                      then js_String (accNum (this st))
                      else js_String (js_field meta "account_number")))
               (JStr (if js_truthy sequence
                      then js_String sequence
                      else js_String (js_field meta "sequence")))),
     logged (tx_loadMetaData address (baseURI (this st))) st).
Proof.
  intros Hcond Haddr Hmeta Hdef.
  unfold prepareSignInfo. js_unfold.
  rewrite Hcond, Haddr, Hmeta.
  rewrite !(js_prop_defined meta) by assumption.
  destruct (js_neq_null (accNum (this st))), (js_truthy sequence); reflexivity.
Qed.

Lemma prepareSignInfo_fetch_logged (sequence : JsVal) (st : Store) (address : JsVal) :
  js_truthy sequence && js_neq_null (accNum (this st)) = false ->
  js_prop (wallet (this st)) "address" = Normal address ->
  calls (world (exec (prepareSignInfo respond sequence) st)) =
    (calls (world st) ++ [tx_loadMetaData address (baseURI (this st))])%list.
Proof.
  intros Hcond Haddr. unfold prepareSignInfo. js_unfold.
  rewrite Hcond, Haddr.
  destruct (respond _ _) as [meta|e]; [|reflexivity].
  destruct (js_neq_null (accNum (this st))), (js_truthy sequence);
    repeat (destruct (js_prop meta _); cbn [snd world calls]); reflexivity.
Qed.

(** The falsy values, one by one. *)
Lemma js_falsy_spec (v : JsVal) :
  js_truthy v = false <->
  v = JUndefined \/ v = JNull \/ v = JBool false \/ v = JNum 0 \/ v = JNaN
  \/ v = JStr "".
Proof.
  split.
  - destruct v as [| |b|n| |s|elems|fields|name message]; cbn; intros H;
      try discriminate H; try tauto.
    + destruct b; [discriminate H|tauto].
    + apply negb_false_iff, Z.eqb_eq in H. subst n. tauto.
    + apply negb_false_iff, String.eqb_eq in H. subst s. tauto.
  - intros [H|[H|[H|[H|[H|H]]]]]; subst v; reflexivity.
Qed.

(** C2. When a sequence is supplied and the account number override is set
    ([accNum] neither [null] nor [undefined]), [prepareSignInfo] returns
    the object [{chain_id, account_number, sequence}] whose [chain_id] is
    the client's chain ID, whose [account_number] is the string
    [String(accNum)] and whose [sequence] is the string [String(sequence)],
    and leaves the store as it found it: no call leaves the class, to the
    node or elsewhere.  Supplied is the source's own test, truthy: it holds
    of every argument but [undefined], [null], [false], [0], [NaN] and the
    empty string, so of every non-empty string and every nonzero number. *)
Theorem prepareSignInfo_manual_no_fetch (sequence : JsVal) (st : Store) :
  js_truthy sequence = true ->
  js_neq_null (accNum (this st)) = true ->
  (exists info,
      prepareSignInfo respond sequence st = (Normal info, st)
      /\ info = JObj [("chain_id", chainID (this st));
                      ("account_number", JStr (js_String (accNum (this st))));
                      ("sequence", JStr (js_String sequence))]
      /\ js_field info "chain_id" = chainID (this st)
      /\ js_field info "account_number" = JStr (js_String (accNum (this st)))
      /\ js_field info "sequence" = JStr (js_String sequence)
      /\ calls (world (exec (prepareSignInfo respond sequence) st)) = calls (world st)
      /\ count_calls is_network_call
                     (calls (world (exec (prepareSignInfo respond sequence) st)))
           = count_calls is_network_call (calls (world st)))
  /\ (forall v,
        js_truthy v = false <->
        v = JUndefined \/ v = JNull \/ v = JBool false \/ v = JNum 0 \/ v = JNaN
        \/ v = JStr "").
Proof.
  intros Hseq Hacc. split; [|apply js_falsy_spec].
  assert (E := prepareSignInfo_local sequence st).
  rewrite Hseq, Hacc in E. specialize (E eq_refl).
  eexists. split; [exact E|].
  unfold exec. rewrite E. repeat split.
Qed.

(** C3. When [prepareSignInfo] takes the fetching branch and the metadata
    arrives, the SignInfo is merged field by field: [account_number] is the
    override when one is set and the fetched account number otherwise;
    [sequence] is the passed sequence when truthy and the fetched sequence
    otherwise; [chain_id] is the client's.  Exactly one call, the metadata
    fetch for the wallet's address, is logged. *)
Theorem prepareSignInfo_merges_fieldwise
        (sequence : JsVal) (st : Store) (address meta : JsVal) :
  js_truthy sequence && js_neq_null (accNum (this st)) = false ->
  js_prop (wallet (this st)) "address" = Normal address ->
  respond (calls (world st)) (tx_loadMetaData address (baseURI (this st))) = Normal meta ->
  js_neq_null meta = true ->
  exists info,
    prepareSignInfo respond sequence st =
      (Normal info, logged (tx_loadMetaData address (baseURI (this st))) st)
    /\ js_field info "chain_id" = chainID (this st)
    /\ js_field info "account_number" =
         JStr (if js_neq_null (accNum (this st))
               then js_String (accNum (this st))
               else js_String (js_field meta "account_number"))
    /\ js_field info "sequence" =
         JStr (if js_truthy sequence
               then js_String sequence
               else js_String (js_field meta "sequence")).
Proof.
  intros Hcond Haddr Hmeta Hdef.
  eexists. split.
  - apply prepareSignInfo_fetched; eassumption.
  - repeat split.
Qed.

Lemma prepareSignInfo_with_chainID (sequence : JsVal) (st : Store) (v : JsVal) :
  prepareSignInfo respond sequence (with_chainID v st) =
    match prepareSignInfo respond sequence st with
    | (Normal info, st') =>
        (Normal (mkSignInfo v (js_field info "account_number")
                            (js_field info "sequence")),
         with_chainID v st')
    | (Throw e, st') => (Throw e, with_chainID v st')
    end.
Proof.
  unfold prepareSignInfo. js_unfold.
  destruct (js_truthy sequence && js_neq_null (accNum (this st))); [reflexivity|].
  destruct (js_prop (wallet (this st)) "address") as [address|e]; [|reflexivity].
  destruct (respond _ _) as [meta|e]; [|reflexivity]. js_unfold.
  destruct (js_neq_null (accNum (this st))), (js_truthy sequence); cbn;
    repeat (destruct (js_prop meta _); cbn); reflexivity.
Qed.

Lemma prepareSignInfo_chain_id_field (sequence : JsVal) (st st' : Store) (info : JsVal) :
  prepareSignInfo respond sequence st = (Normal info, st') ->
  js_field info "chain_id" = chainID (this st).
Proof.
  unfold prepareSignInfo. js_unfold.
  destruct (js_truthy sequence && js_neq_null (accNum (this st))).
  - intros H; inversion H; reflexivity.
  - destruct (js_prop (wallet (this st)) "address") as [address|e]; [|discriminate].
    destruct (respond _ _) as [meta|e]; [|discriminate].
    destruct (js_neq_null (accNum (this st))), (js_truthy sequence); cbn;
      repeat (destruct (js_prop meta _); cbn; try discriminate);
      intros H; inversion H; reflexivity.
Qed.

(** C1 (as amended). [prepareSignInfo] never looks at the chain ID: whenever
    it returns, the SignInfo's [chain_id] is the client's [chainID] as it
    stands, and the same call on the same client with any other [chainID],
    [undefined] included, returns as well, with the same account number and
    sequence. *)
Theorem prepareSignInfo_ignores_chainID
        (sequence : JsVal) (st st' : Store) (info : JsVal) :
  prepareSignInfo respond sequence st = (Normal info, st') ->
  js_field info "chain_id" = chainID (this st)
  /\ forall v,
       prepareSignInfo respond sequence (with_chainID v st) =
         (Normal (mkSignInfo v (js_field info "account_number")
                             (js_field info "sequence")),
          with_chainID v st').
Proof.
  intros H. split.
  - eapply prepareSignInfo_chain_id_field; eassumption.
  - intros v. rewrite prepareSignInfo_with_chainID, H. reflexivity.
Qed.

(** *** checkTxHash *)

(** C4. [checkTxHash] looks the hash up with one query.  When the answer's
    result code is [0] it returns the answer's [data] and writes nothing to
    the console; when the code is a nonzero number it returns the answer's
    [data] all the same, having written the rejection to the console, and
    nothing is thrown; when the query itself throws [e], it throws the error
    of message ["tx not found: " ++ String(e)]. *)
Theorem checkTxHash_outcomes (txHash timeout : JsVal) (st : Store) :
  let query := tx_getTx (JStr (api.txs ++ "/" ++ js_String txHash))
                        (baseURI (this st))
                        (default_arg timeout (JNum 10000)) in
  (forall res,
      respond (calls (world st)) query = Normal res ->
      lodash_get res "data.code" = JNum 0 ->
      checkTxHash respond txHash timeout st =
        (Normal (js_field res "data"), logged query st))
  /\ (forall res n,
      respond (calls (world st)) query = Normal res ->
      lodash_get res "data.code" = JNum n ->
      n <> 0%Z ->
      checkTxHash respond txHash timeout st =
        (Normal (js_field res "data"),
         mkStore (this st)
                 (mkWorld (calls (world st) ++ [query])
                          (console (world st) ++ [rejection_line res]))))
  /\ (forall e,
      respond (calls (world st)) query = Throw e ->
      checkTxHash respond txHash timeout st =
        (Throw (new_Error ("tx not found: " ++ js_String e)), logged query st)).
Proof.
  intros query. subst query. repeat split.
  - intros res Hres Hcode. unfold checkTxHash. js_unfold.
    rewrite Hres. js_unfold. rewrite Hcode. cbn.
    rewrite js_prop_defined; [reflexivity|].
    apply (lodash_get_found res "data.code"). rewrite Hcode. discriminate.
  - intros res n Hres Hcode Hn. unfold checkTxHash. js_unfold.
    rewrite Hres. js_unfold. rewrite Hcode.
    assert (Ht : js_truthy (JNum n) = true).
    { simpl. apply negb_true_iff. now apply Z.eqb_neq. }
    rewrite Ht. js_unfold.
    rewrite js_prop_defined; [reflexivity|].
    apply (lodash_get_found res "data.code"). rewrite Hcode. discriminate.
  - intros e He. unfold checkTxHash. js_unfold.
    rewrite He. reflexivity.
Qed.

(** *** The setters and the constructor *)

(** C5. On a falsy argument ([undefined], [null], the empty string, and
    also [0], [NaN] and [false]) [setChainID], [setAccountNumber],
    [setBroadcastMode], [setWallet] and the constructor each throw their
    [Error] and leave the store as it was: no field of the client is
    written, no call is made, and [new] yields no client. *)
Theorem empty_input_rejected (v : JsVal) (st : Store) :
  js_truthy v = false ->
  setChainID v st = (Throw (new_Error "chainID cannot be undefined"), st)
  /\ setAccountNumber v st =
       (Throw (new_Error "account number cannot be undefined"), st)
  /\ setBroadcastMode v st =
       (Throw (new_Error "broadcast mode cannot be undefined"), st)
  /\ (forall password legacy,
        setWallet respond v password legacy st =
          (Throw (new_Error "mnemonic cannot be undefined"), st))
  /\ (forall w,
        new_SeeleClient respond v w =
          (Throw (new_Error "Seele server should not be null"), w)).
Proof.
  intros Hv.
  unfold setChainID, setAccountNumber, setBroadcastMode, setWallet,
    new_SeeleClient, constructor.
  rewrite Hv. js_unfold. repeat split.
Qed.

(** C6 (as amended). [setBroadcastMode] succeeds on the three strings
    ["async"], ["sync"] and ["block"], storing the mode given and changing
    nothing else; on every other primitive argument (any other string, a
    number, a boolean, [null], [undefined]) it throws its [Error] and the
    store, the stored mode with it, is unchanged.  Not every non-string is
    refused: the guard compares with the loose [!=], so the one-element
    array of a mode name is accepted too, and the name is stored. *)
Theorem setBroadcastMode_accepts_modes (mode : JsVal) (st : Store) :
  (forall s,
      s = "async" \/ s = "sync" \/ s = "block" ->
      mode = JStr s \/ mode = JArr [JStr s] ->
      exists c',
        setBroadcastMode mode st = (Normal c', mkStore c' (world st))
        /\ broadcastMode c' = JStr s
        /\ baseURI c' = baseURI (this st)
        /\ hard c' = hard (this st)
        /\ chainID c' = chainID (this st)
        /\ accNum c' = accNum (this st)
        /\ wallet c' = wallet (this st))
  /\ (is_primitive mode = true ->
      mode <> JStr "async" -> mode <> JStr "sync" -> mode <> JStr "block" ->
      setBroadcastMode mode st =
        (Throw (new_Error (if js_truthy mode
                           then "invalid broadcast mode "
                           else "broadcast mode cannot be undefined")),
         st)).
Proof.
  split.
  - intros s Hs Hmode.
    destruct Hs as [Hs|[Hs|Hs]]; destruct Hmode as [Hm|Hm]; subst s mode;
      (eexists; split; [reflexivity|repeat split]).
  - intros Hprim Ha Hs Hb. unfold setBroadcastMode.
    destruct mode as [| |b|n| |s|elems|fields|name message];
      try discriminate Hprim; try reflexivity.
    + destruct b; reflexivity.
    + cbn [js_truthy]. destruct (n =? 0)%Z; reflexivity.
    + assert (Ea : (s =? "async") = false)
        by (apply String.eqb_neq; intros E; apply Ha; now rewrite E).
      assert (Es : (s =? "sync") = false)
        by (apply String.eqb_neq; intros E; apply Hs; now rewrite E).
      assert (Eb : (s =? "block") = false)
        by (apply String.eqb_neq; intros E; apply Hb; now rewrite E).
      unfold js_neq_str, js_eq_str. rewrite Ea, Es, Eb.
      cbn [js_truthy negb andb]. destruct (s =? ""); reflexivity.
Qed.

(** *** initChain *)

Lemma initChain_set (st : Store) :
  js_truthy (chainID (this st)) = true ->
  initChain respond st = (Normal (this st), st).
Proof.
  intros H. unfold initChain. js_unfold. rewrite H. cbn. now destruct st.
Qed.

Lemma initChain_calls (st : Store) :
  calls (world (exec (initChain respond) st)) = calls (world st)
  \/ calls (world (exec (initChain respond) st)) =
       (calls (world st)
        ++ [tx_getTx (JStr api.nodeInfo) (baseURI (this st)) JUndefined])%list.
Proof.
  unfold initChain. js_unfold.
  destruct (js_truthy (chainID (this st))); cbn; [now left|].
  destruct (respond _ _); cbn; now right.
Qed.

Lemma count_calls_snoc (p : ExtCall -> bool) (l : list ExtCall) (c : ExtCall) :
  count_calls p (l ++ [c]) = (count_calls p l + (if p c then 1 else 0))%nat.
Proof.
  unfold count_calls. rewrite filter_app, length_app. cbn.
  destruct (p c); reflexivity.
Qed.

Lemma initChain_halves (st : Store) :
  initChain respond st =
    initChain_resume (fst (initChain_begin respond st)) (snd (initChain_begin respond st)).
Proof.
  unfold initChain, initChain_begin, initChain_resume. js_unfold.
  destruct (js_truthy (chainID (this st))); cbn [negb fst snd]; js_unfold.
  - now destruct st.
  - destruct (respond _ _); reflexivity.
Qed.

(** C7 (as amended). When the chain ID is already set (truthy: fetched or
    set by hand), [initChain] makes no query and changes nothing, returning
    the client, which holds the cached chain ID.  Two calls made one after
    the other, the second started when the first has completed, make at
    most one node-info query whenever the first leaves a chain ID set, and
    after a [setChainID] that succeeded [initChain] makes none.  Two calls
    that overlap, the second started while the first still awaits its
    answer, both query: the test of [chainID] stands before the [await]
    and the write after it. *)
Theorem initChain_idempotent_once_set (st : Store) :
  (js_truthy (chainID (this st)) = true ->
     initChain respond st = (Normal (this st), st))
  /\ (forall r1 st1 r2 st2,
        initChain respond st = (r1, st1) ->
        js_truthy (chainID (this st1)) = true ->
        initChain respond st1 = (r2, st2) ->
        r2 = Normal (this st1) /\ st2 = st1
        /\ (count_calls is_node_info_query (calls (world st2))
            <= 1 + count_calls is_node_info_query (calls (world st)))%nat)
  /\ (forall v c st',
        setChainID v st = (Normal c, st') ->
        initChain respond st' = (Normal (this st'), st'))
  /\ initChain respond st =
       initChain_resume (fst (initChain_begin respond st))
                        (snd (initChain_begin respond st))
  /\ (js_truthy (chainID (this st)) = false ->
      count_calls is_node_info_query
                  (calls (world (snd (initChain_begin
                                        respond
                                        (snd (initChain_begin respond st))))))
      = (2 + count_calls is_node_info_query (calls (world st)))%nat).
Proof.
  split; [apply initChain_set|]. split; [|split; [|split]].
  2:{ intros v c st'. unfold setChainID.
      destruct (js_truthy v) eqn:Hv; cbn [negb]; js_unfold; [|discriminate].
      intros H. inversion H; subst. apply initChain_set. exact Hv. }
  2:{ apply initChain_halves. }
  2:{ intros Hunset. unfold initChain_begin.
      rewrite Hunset. cbn [negb snd this world calls]. rewrite Hunset.
      cbn [negb snd this world calls].
      rewrite !count_calls_snoc. cbn. lia. }
  intros r1 st1 r2 st2 H1 Hset H2.
  rewrite (initChain_set st1 Hset) in H2. inversion H2; subst r2 st2.
  repeat split.
  assert (C := initChain_calls st). unfold exec in C. rewrite H1 in C.
  cbn [snd] in C. destruct C as [C|C]; rewrite C.
  - lia.
  - rewrite count_calls_snoc. cbn. lia.
Qed.

(** *** What a method may write and which calls it may make *)

Section Emits.

Variable Inv : SeeleClient -> Prop.
Variable P : ExtCall -> Prop.

Lemma emits_silent {A : Type} (m : Js A) :
  (forall st, this (exec m st) = this st
              /\ calls (world (exec m st)) = calls (world st)) ->
  emits Inv P m.
Proof.
  intros H st Hi. destruct (H st) as [Ht Hc]. rewrite Ht, Hc. split; [assumption|].
  exists []. rewrite app_nil_r. split; [reflexivity|constructor].
Qed.

Lemma emits_pure {A : Type} (a : A) : emits Inv P (pure a).
Proof. apply emits_silent. intros st. split; reflexivity. Qed.

Lemma emits_throw {A : Type} (e : JsVal) : emits Inv P (@throw A e).
Proof. apply emits_silent. intros st. split; reflexivity. Qed.

Lemma emits_lift {A : Type} (c : Completion A) : emits Inv P (lift c).
Proof. apply emits_silent. intros st. split; reflexivity. Qed.

Lemma emits_get_this : emits Inv P get_this.
Proof. apply emits_silent. intros st. split; reflexivity. Qed.

Lemma emits_console_log (line : string) : emits Inv P (console_log line).
Proof. apply emits_silent. intros st. split; reflexivity. Qed.

Lemma emits_modify (f : SeeleClient -> SeeleClient) :
  (forall c, Inv c -> Inv (f c)) -> emits Inv P (modify_this f).
Proof.
  intros Hf st Hi. split; [apply Hf, Hi|].
  exists []. cbn. rewrite app_nil_r. split; [reflexivity|constructor].
Qed.

Lemma emits_call (c : ExtCall) : P c -> emits Inv P (call respond c).
Proof.
  intros Hc st Hi. split; [exact Hi|].
  exists [c]. split; [reflexivity|]. constructor; [exact Hc|constructor].
Qed.

Lemma emits_bind {A B : Type} (m : Js A) (k : A -> Js B) :
  emits Inv P m -> (forall a, emits Inv P (k a)) -> emits Inv P (bind m k).
Proof.
  unfold emits, exec. intros Hm Hk st Hi.
  destruct (Hm st Hi) as [Hi1 [evs1 [E1 F1]]].
  unfold bind. destruct (m st) as [[a|e] st1]; cbn [snd] in *.
  - destruct (Hk a st1 Hi1) as [Hi2 [evs2 [E2 F2]]]. split; [exact Hi2|].
    exists (evs1 ++ evs2)%list. rewrite E2, E1, app_assoc.
    split; [reflexivity|]. apply Forall_app. now split.
  - split; [exact Hi1|]. exists evs1. now split.
Qed.

Lemma emits_bind_this {B : Type} (k : SeeleClient -> Js B) :
  (forall c, Inv c -> emits Inv P (k c)) -> emits Inv P (bind get_this k).
Proof. intros Hk st Hi. exact (Hk (this st) Hi st Hi). Qed.

Lemma emits_try_catch {A : Type} (body : Js A) (handler : JsVal -> Js A) :
  emits Inv P body -> (forall e, emits Inv P (handler e)) ->
  emits Inv P (try_catch body handler).
Proof.
  unfold emits, exec. intros Hm Hk st Hi.
  destruct (Hm st Hi) as [Hi1 [evs1 [E1 F1]]].
  unfold try_catch. destruct (body st) as [[a|e] st1]; cbn [snd] in *.
  - split; [exact Hi1|]. exists evs1. now split.
  - destruct (Hk e st1 Hi1) as [Hi2 [evs2 [E2 F2]]]. split; [exact Hi2|].
    exists (evs1 ++ evs2)%list. rewrite E2, E1, app_assoc.
    split; [reflexivity|]. apply Forall_app. now split.
Qed.

End Emits.

(** One step of a proof of [emits]: by the shape of the computation. *)
Ltac emits_step :=
  lazymatch goal with
  | |- emits _ _ (pure _) => apply emits_pure
  | |- emits _ _ (throw _) => apply emits_throw
  | |- emits _ _ (lift _) => apply emits_lift
  | |- emits _ _ get_this => apply emits_get_this
  | |- emits _ _ (console_log _) => apply emits_console_log
  | |- emits _ _ (modify_this _) => apply emits_modify; intros ? ?
  | |- emits _ _ (call _ _) => apply emits_call
  | |- emits _ _ (bind get_this _) => apply emits_bind_this; intros ? ?
  | |- emits _ _ (bind _ _) => apply emits_bind; [|intros ?]
  | |- emits _ _ (try_catch _ _) => apply emits_try_catch; [|intros ?]
  | |- emits _ _ (if ?b then _ else _) => destruct b
  end.

Lemma prepareSignInfo_emits (Inv : SeeleClient -> Prop) (P : ExtCall -> Prop)
      (sequence : JsVal) :
  (forall address base, P (tx_loadMetaData address base)) ->
  emits Inv P (prepareSignInfo respond sequence).
Proof.
  intros HP. unfold prepareSignInfo. repeat emits_step; try apply HP; assumption.
Qed.

Lemma sendTx_emits (Inv : SeeleClient -> Prop) (P : ExtCall -> Prop)
      (msgs fee sequence : JsVal) :
  (forall c, is_builder_call c = true \/ is_loadMetaData c = true -> P c) ->
  (forall rawTx signInfo w, P (tx_signTx rawTx signInfo w)) ->
  (forall c signedTx, Inv c -> P (tx_broadcastTx signedTx (baseURI c) (broadcastMode c))) ->
  emits Inv P (sendTx respond msgs fee sequence).
Proof.
  intros HP Hsign Hcast. unfold sendTx.
  repeat first [emits_step | apply prepareSignInfo_emits; intros ? ?];
    first [ apply HP; cbn; tauto | apply Hsign | apply Hcast; assumption ].
Qed.

(** What follows the building of the envelope in [sendTx]. *)
Lemma sendTx_unfold (msgs fee sequence : JsVal) (st : Store) (rawTx : JsVal) :
  respond (calls (world st)) (msg_cosmos_newStdTx msgs fee) = Normal rawTx ->
  sendTx respond msgs fee sequence st =
    (signInfo <- prepareSignInfo respond sequence ;;
     c <- get_this ;;
     signedTx <- call respond (tx_signTx rawTx signInfo (wallet c)) ;;
     c <- get_this ;;
     call respond (tx_broadcastTx signedTx (baseURI c) (broadcastMode c)))
      (logged (msg_cosmos_newStdTx msgs fee) st).
Proof.
  intros H. unfold sendTx. unfold bind at 1. unfold call at 1. rewrite H.
  reflexivity.
Qed.

Lemma transfer_unfold (recipient coins fee sequence : JsVal) (st : Store)
      (address msgSend : JsVal) :
  js_prop (wallet (this st)) "address" = Normal address ->
  respond (calls (world st)) (msg_cosmos_newMsgSend address recipient coins)
    = Normal msgSend ->
  transfer respond recipient coins fee sequence st =
    sendTx respond (JArr [msgSend]) (default_arg fee DEFAULT_FEE)
           (default_arg sequence JNull)
           (logged (msg_cosmos_newMsgSend address recipient coins) st).
Proof.
  intros Haddr Hmsg. unfold transfer. cbv zeta.
  unfold bind at 1. unfold get_this at 1.
  unfold bind at 1. unfold lift at 1. rewrite Haddr.
  unfold bind at 1. unfold call at 1. rewrite Hmsg.
  reflexivity.
Qed.

Lemma exec_bind_extends {A B : Type} (m : Js A) (k : A -> Js B) (st : Store) :
  (forall a, emits (fun _ => True) (fun _ => True) (k a)) ->
  exists tail,
    calls (world (exec (bind m k) st)) = (calls (world (exec m st)) ++ tail)%list.
Proof.
  intros Hk. unfold exec, bind. destruct (m st) as [[a|e] st1]; cbn [snd].
  - destruct (Hk a st1 Logic.I) as [_ [evs [E _]]]. exists evs. exact E.
  - exists []. now rewrite app_nil_r.
Qed.

Lemma sendTx_calls (msgs fee sequence : JsVal) (st : Store) :
  exists tail,
    calls (world (exec (sendTx respond msgs fee sequence) st)) =
      (calls (world st) ++ msg_cosmos_newStdTx msgs fee :: tail)%list
    /\ Forall (fun c => is_builder_call c = false) tail.
Proof.
  destruct (respond (calls (world st)) (msg_cosmos_newStdTx msgs fee))
    as [rawTx|e] eqn:Hraw.
  - unfold exec. rewrite (sendTx_unfold _ _ _ _ _ Hraw).
    match goal with
    | |- context [snd (?k ?st1)] =>
        assert (Hk : emits (fun _ => True) (fun c => is_builder_call c = false) k)
    end.
    { repeat first [emits_step | apply prepareSignInfo_emits; intros ? ?];
        first [exact Logic.I | reflexivity]. }
    destruct (Hk (logged (msg_cosmos_newStdTx msgs fee) st) Logic.I)
      as [_ [evs [E F]]].
    unfold exec in E. exists evs. split; [|exact F].
    rewrite E. cbn. now rewrite <- app_assoc.
  - exists []. split; [|constructor].
    unfold sendTx, exec. unfold bind at 1. unfold call at 1. rewrite Hraw.
    reflexivity.
Qed.

(** *** transfer *)

(** C8. With a wallet in place, [transfer] asks the message builder for one
    coin-send message, from the wallet's own address to the given recipient
    with the given coins, and the message built, alone in a list, goes to
    one run of [sendTx] together with the fee and the sequence: the fee
    passed, or the default fee [{amount: [], gas: "300000"}] when none is
    passed ([undefined]); the sequence passed, or [null] when none is.
    The call log shows it: one message built, one envelope built from that
    one-message list and that fee, and no builder call after that. *)
Theorem transfer_sends_once
        (recipient coins fee sequence : JsVal) (st : Store)
        (address msgSend : JsVal) :
  js_prop (wallet (this st)) "address" = Normal address ->
  respond (calls (world st)) (msg_cosmos_newMsgSend address recipient coins)
    = Normal msgSend ->
  transfer respond recipient coins fee sequence st =
    sendTx respond (JArr [msgSend])
           (match fee with
            | JUndefined => JObj [("amount", JArr []); ("gas", JStr "300000")]
            | _ => fee
            end)
           (match sequence with
            | JUndefined => JNull
            | _ => sequence
            end)
           (mkStore (this st)
                    (mkWorld (calls (world st)
                              ++ [msg_cosmos_newMsgSend address recipient coins])
                             (console (world st))))
  /\ (exists tail,
        calls (world (exec (transfer respond recipient coins fee sequence) st)) =
          (calls (world st)
           ++ msg_cosmos_newMsgSend address recipient coins
           :: msg_cosmos_newStdTx
                (JArr [msgSend])
                (match fee with
                 | JUndefined => JObj [("amount", JArr []); ("gas", JStr "300000")]
                 | _ => fee
                 end)
           :: tail)%list
        /\ Forall (fun c => is_builder_call c = false) tail).
Proof.
  intros Haddr Hmsg.
  assert (E := transfer_unfold recipient coins fee sequence st address msgSend
                               Haddr Hmsg).
  split; [exact E|].
  change (match fee with
          | JUndefined => JObj [("amount", JArr []); ("gas", JStr "300000")]
          | _ => fee
          end) with (default_arg fee DEFAULT_FEE).
  unfold exec. rewrite E.
  destruct (sendTx_calls (JArr [msgSend]) (default_arg fee DEFAULT_FEE)
                         (default_arg sequence JNull)
                         (logged (msg_cosmos_newMsgSend address recipient coins) st))
    as [tail [Hc Hf]].
  exists tail. split; [|exact Hf].
  unfold exec in Hc. rewrite Hc. cbn. now rewrite <- app_assoc.
Qed.

Lemma transfer_default_fetches
      (recipient coins fee : JsVal) (st : Store) (address msgSend rawTx : JsVal) :
  js_prop (wallet (this st)) "address" = Normal address ->
  respond (calls (world st))
          (msg_cosmos_newMsgSend address recipient coins) = Normal msgSend ->
  respond (calls (world st) ++ [msg_cosmos_newMsgSend address recipient coins])
          (msg_cosmos_newStdTx (JArr [msgSend]) (default_arg fee DEFAULT_FEE))
    = Normal rawTx ->
  exists tail,
    calls (world (exec (transfer respond recipient coins fee JUndefined) st)) =
      (calls (world st)
       ++ [msg_cosmos_newMsgSend address recipient coins;
           msg_cosmos_newStdTx (JArr [msgSend]) (default_arg fee DEFAULT_FEE);
           tx_loadMetaData address (baseURI (this st))]
       ++ tail)%list.
Proof.
  intros Haddr Hmsg Hraw.
  unfold exec.
  rewrite (transfer_unfold recipient coins fee JUndefined st address msgSend
                           Haddr Hmsg).
  set (st1 := logged (msg_cosmos_newMsgSend address recipient coins) st).
  rewrite (sendTx_unfold _ _ _ st1 rawTx Hraw).
  set (st2 := logged (msg_cosmos_newStdTx (JArr [msgSend])
                                          (default_arg fee DEFAULT_FEE)) st1).
  match goal with
  | |- context [snd (bind ?m ?k st2)] =>
      destruct (exec_bind_extends m k st2) as [tail Ht]
  end.
  { intros a. repeat emits_step; exact Logic.I. }
  exists tail. unfold exec in Ht. rewrite Ht.
  change (snd (prepareSignInfo respond (default_arg JUndefined JNull) st2))
    with (exec (prepareSignInfo respond JNull) st2).
  rewrite (prepareSignInfo_fetch_logged JNull st2 address);
    [|reflexivity|exact Haddr].
  subst st2 st1. cbn. now rewrite <- !app_assoc.
Qed.

Lemma transfer_default_signs_after_fetch
      (recipient coins fee : JsVal) (st : Store) :
  exists evs,
    calls (world (exec (transfer respond recipient coins fee JUndefined) st)) =
      (calls (world st) ++ evs)%list
    /\ (existsb is_signTx evs = true -> existsb is_loadMetaData evs = true).
Proof.
  destruct (js_prop (wallet (this st)) "address") as [address|e] eqn:Haddr.
  - destruct (respond (calls (world st))
                      (msg_cosmos_newMsgSend address recipient coins))
      as [msgSend|e] eqn:Hmsg.
    + destruct (respond (calls (world st)
                         ++ [msg_cosmos_newMsgSend address recipient coins])
                        (msg_cosmos_newStdTx (JArr [msgSend])
                                             (default_arg fee DEFAULT_FEE)))
        as [rawTx|e] eqn:Hraw.
      * destruct (transfer_default_fetches recipient coins fee st address msgSend
                                           rawTx Haddr Hmsg Hraw) as [tail Ht].
        eexists. split; [exact Ht|]. intros _. reflexivity.
      * exists [msg_cosmos_newMsgSend address recipient coins;
                msg_cosmos_newStdTx (JArr [msgSend]) (default_arg fee DEFAULT_FEE)].
        split; [|discriminate].
        unfold exec.
        rewrite (transfer_unfold recipient coins fee JUndefined st address msgSend
                                 Haddr Hmsg).
        unfold sendTx. unfold bind at 1. unfold call at 1. cbn [logged world calls].
        rewrite Hraw. cbn. now rewrite <- app_assoc.
    + exists [msg_cosmos_newMsgSend address recipient coins].
      split; [|discriminate].
      unfold exec, transfer. cbv zeta.
      unfold bind at 1. unfold get_this at 1.
      unfold bind at 1. unfold lift at 1. rewrite Haddr.
      unfold bind at 1. unfold call at 1. rewrite Hmsg. reflexivity.
  - exists []. split; [|discriminate].
    unfold exec, transfer. cbv zeta.
    unfold bind at 1. unfold get_this at 1.
    unfold bind at 1. unfold lift at 1. rewrite Haddr.
    cbn. now rewrite app_nil_r.
Qed.

(** C9. A falsy sequence counts as no sequence.  The number [0], [null] and
    the empty string are falsy (the string ["0"] is not).  With a wallet in
    place and a falsy sequence, [prepareSignInfo] makes the metadata fetch
    even when the account number override is set, and when the metadata
    arrives the [sequence] field of the SignInfo returned is the string of
    the fetched sequence, not of the one passed.  [transfer] called
    without a sequence passes [null] on: it never signs without having
    fetched the metadata first, and once its message and envelope are built
    the fetch follows. *)
Theorem falsy_sequence_is_absent (st : Store) :
  (js_truthy (JNum 0) = false /\ js_truthy JNull = false
   /\ js_truthy (JStr "") = false /\ js_truthy (JStr "0") = true)
  /\ (forall sequence address,
        js_truthy sequence = false ->
        js_prop (wallet (this st)) "address" = Normal address ->
        calls (world (exec (prepareSignInfo respond sequence) st)) =
          (calls (world st) ++ [tx_loadMetaData address (baseURI (this st))])%list
        /\ forall meta,
             js_neq_null (accNum (this st)) = true ->
             respond (calls (world st))
                     (tx_loadMetaData address (baseURI (this st))) = Normal meta ->
             js_neq_null meta = true ->
             exists info,
               prepareSignInfo respond sequence st =
                 (Normal info,
                  mkStore (this st)
                          (mkWorld (calls (world st)
                                    ++ [tx_loadMetaData address (baseURI (this st))])
                                   (console (world st))))
               /\ js_field info "sequence" = JStr (js_String (js_field meta "sequence"))
               /\ js_field info "account_number" = JStr (js_String (accNum (this st)))
               /\ js_field info "chain_id" = chainID (this st))
  /\ (forall recipient coins fee,
        exists evs,
          calls (world (exec (transfer respond recipient coins fee JUndefined) st)) =
            (calls (world st) ++ evs)%list
          /\ (existsb is_signTx evs = true -> existsb is_loadMetaData evs = true))
  /\ (forall recipient coins fee address msgSend rawTx,
        js_prop (wallet (this st)) "address" = Normal address ->
        respond (calls (world st))
                (msg_cosmos_newMsgSend address recipient coins) = Normal msgSend ->
        respond (calls (world st) ++ [msg_cosmos_newMsgSend address recipient coins])
                (msg_cosmos_newStdTx (JArr [msgSend]) (default_arg fee DEFAULT_FEE))
          = Normal rawTx ->
        exists tail,
          calls (world (exec (transfer respond recipient coins fee JUndefined) st)) =
            (calls (world st)
             ++ [msg_cosmos_newMsgSend address recipient coins;
                 msg_cosmos_newStdTx (JArr [msgSend]) (default_arg fee DEFAULT_FEE);
                 tx_loadMetaData address (baseURI (this st))]
             ++ tail)%list).
Proof.
  split; [repeat split|]. split; [|split].
  - intros sequence address Hseq Haddr.
    assert (Hcond : js_truthy sequence && js_neq_null (accNum (this st)) = false)
      by (rewrite Hseq; reflexivity).
    split.
    + now apply prepareSignInfo_fetch_logged.
    + intros meta Hacc Hmeta Hdef.
      rewrite (prepareSignInfo_fetched sequence st address meta Hcond Haddr Hmeta Hdef).
      rewrite Hacc, Hseq. eexists. split; [reflexivity|]. repeat split.
  - intros recipient coins fee. apply transfer_default_signs_after_fetch.
  - intros recipient coins fee address msgSend rawTx.
    apply transfer_default_fetches.
Qed.

(** *** The defaults of a new client *)

Lemma run_op_keeps_mode (b : JsVal) (op : Op) :
  forall st,
    broadcastMode (this st) = b ->
    broadcastMode (this (run_op respond op st)) = b
    /\ exists evs,
         calls (world (run_op respond op st)) = (calls (world st) ++ evs)%list
         /\ Forall (broadcasts_with b) evs.
Proof.
  change (emits (fun c => broadcastMode c = b) (broadcasts_with b)
                (fun st => (Normal tt, run_op respond op st))).
  destruct op; cbn [run_op];
    match goal with
    | |- emits ?Inv ?P (fun st => (_, exec ?m st)) =>
        cut (emits Inv P m); [intros H st Hi; exact (H st Hi)|]
    end;
    unfold initChain, setChainID, setAccountNumber, setWallet, getLatestBlock,
      getBlock, getLatestValidatorSet, getValidatorSet, checkTxHash, getAccount,
      getBalances, getSupply, getSupplyOf, transfer, return_data,
      return_data_result;
    cbv zeta;
    repeat first [emits_step
                 | apply prepareSignInfo_emits; intros ? ?
                 | apply sendTx_emits; intros];
    cbn;
    try match goal with
        | H : is_builder_call ?c = true \/ is_loadMetaData ?c = true |- _ =>
            destruct c; cbn in H |- *; destruct H; discriminate || exact Logic.I
        end;
    first [assumption | exact Logic.I | reflexivity].
Qed.

Lemma run_ops_keep_mode (b : JsVal) (ops : list Op) :
  forall st,
    broadcastMode (this st) = b ->
    broadcastMode (this (run_ops respond ops st)) = b
    /\ exists evs,
         calls (world (run_ops respond ops st)) = (calls (world st) ++ evs)%list
         /\ Forall (broadcasts_with b) evs.
Proof.
  induction ops as [|op ops IH]; intros st Hb.
  - split; [exact Hb|]. exists []. cbn. rewrite app_nil_r. now split.
  - change (run_ops respond (op :: ops) st)
      with (run_ops respond ops (run_op respond op st)).
    destruct (run_op_keeps_mode b op st Hb) as [Hb1 [evs1 [E1 F1]]].
    destruct (IH _ Hb1) as [Hb2 [evs2 [E2 F2]]].
    split; [exact Hb2|]. exists (evs1 ++ evs2)%list.
    rewrite E2, E1, app_assoc. split; [reflexivity|].
    apply Forall_app. now split.
Qed.

Lemma new_SeeleClient_fields (server : JsVal) (w w' : World) (c : SeeleClient) :
  new_SeeleClient respond server w = (Normal c, w') ->
  exists h,
    c = mkClient server (JStr "sync") h JUndefined JUndefined JUndefined
    /\ js_truthy server = true.
Proof.
  unfold new_SeeleClient, constructor.
  destruct (js_truthy server); cbn [negb]; js_unfold; [|discriminate].
  destruct (respond (calls w) new_Hard) as [h|e]; [|discriminate].
  intros H. inversion H. exists h. split; reflexivity.
Qed.

(** C10. A client that [new SeeleClient(server)] has just built broadcasts
    in mode ["sync"] and has no chain ID, no wallet and no account number
    override.  Through any session of the other public methods, that is
    without [setBroadcastMode], the stored mode stays ["sync"] and every
    broadcast the session makes carries ["sync"]. *)
Theorem constructed_defaults (server : JsVal) (w w' : World) (c : SeeleClient) :
  new_SeeleClient respond server w = (Normal c, w') ->
  broadcastMode c = JStr "sync"
  /\ chainID c = JUndefined
  /\ wallet c = JUndefined
  /\ accNum c = JUndefined
  /\ forall ops,
       broadcastMode (this (run_ops respond ops (mkStore c w'))) = JStr "sync"
       /\ exists evs,
            calls (world (run_ops respond ops (mkStore c w'))) = (calls w' ++ evs)%list
            /\ Forall (broadcasts_with (JStr "sync")) evs.
Proof.
  intros H. destruct (new_SeeleClient_fields server w w' c H) as [h [Hc _]].
  subst c. repeat split; try reflexivity.
  - apply (run_ops_keep_mode (JStr "sync") ops). reflexivity.
  - apply (run_ops_keep_mode (JStr "sync") ops (mkStore _ w')). reflexivity.
Qed.

(** *** Further properties: what every method sends and keeps *)

Lemma truthy_defined (v : JsVal) : js_truthy v = true -> js_neq_null v = true.
Proof. destruct v; simpl; intros H; try reflexivity; discriminate H. Qed.

Lemma emits_call_under (Inv : SeeleClient -> Prop) (P : ExtCall -> Prop)
      (c : ExtCall) :
  (forall cl, Inv cl -> P c) -> emits Inv P (call respond c).
Proof.
  intros Hc st Hi. split; [exact Hi|].
  exists [c]. split; [reflexivity|]. constructor; [exact (Hc _ Hi)|constructor].
Qed.

(** As [emits_step], with the client at hand when a call is made. *)
Ltac emits_walk :=
  lazymatch goal with
  | |- emits _ _ (call _ _) => apply emits_call_under; intros ? ?
  | _ => emits_step
  end.

(** Every call a method makes takes its node address, mode and wallet
    from the client as it stands; a method writes the client only through
    [chainID], [accNum] and [wallet]. *)
Lemma run_op_sends (Inv : SeeleClient -> Prop) (P : ExtCall -> Prop) (op : Op) :
  (forall v c, Inv c -> Inv (set_chainID v c)) ->
  (forall v c, Inv c -> Inv (set_accNum v c)) ->
  (forall v c, Inv c -> Inv (set_wallet v c)) ->
  (forall c call, Inv c -> sent_by c call -> P call) ->
  emits Inv P (fun st => (Normal tt, run_op respond op st)).
Proof.
  intros Hchain Hacc Hwallet Hsend.
  destruct op; cbn [run_op];
    match goal with
    | |- emits _ _ (fun st => (_, exec ?m st)) =>
        cut (emits Inv P m); [intros H st Hi; exact (H st Hi)|]
    end;
    unfold initChain, setChainID, setAccountNumber, setWallet, getLatestBlock,
      getBlock, getLatestValidatorSet, getValidatorSet, checkTxHash, getAccount,
      getBalances, getSupply, getSupplyOf, transfer, sendTx, prepareSignInfo,
      return_data, return_data_result;
    cbv zeta;
    repeat emits_walk;
    first [ apply Hchain; assumption
          | apply Hacc; assumption
          | apply Hwallet; assumption
          | match goal with
            | H : Inv ?c |- P _ =>
                apply (Hsend c _ H); cbn; solve [repeat split; reflexivity]
            end ].
Qed.

Lemma reader_emits (Inv : SeeleClient -> Prop) (P : ExtCall -> Prop) (op : Op) :
  is_reader op = true ->
  (forall c call, Inv c -> sent_by c call -> P call) ->
  emits Inv P (fun st => (Normal tt, run_op respond op st)).
Proof.
  intros Hr Hsend.
  destruct op; try discriminate Hr; cbn [run_op];
    match goal with
    | |- emits _ _ (fun st => (_, exec ?m st)) =>
        cut (emits Inv P m); [intros H st Hi; exact (H st Hi)|]
    end;
    unfold getLatestBlock,
      getBlock, getLatestValidatorSet, getValidatorSet, checkTxHash, getAccount,
      getBalances, getSupply, getSupplyOf, transfer, sendTx, prepareSignInfo,
      return_data, return_data_result;
    cbv zeta;
    repeat emits_walk;
    match goal with
    | H : Inv ?c |- P _ =>
        apply (Hsend c _ H); cbn; solve [repeat split; reflexivity]
    end.
Qed.

Lemma session_emits (Inv : SeeleClient -> Prop) (P : ExtCall -> Prop)
      {X : Type} (step : X -> Store -> Store) :
  (forall x, emits Inv P (fun st => (Normal tt, step x st))) ->
  forall xs,
    emits Inv P (fun st => (Normal tt, fold_left (fun acc x => step x acc) xs st)).
Proof.
  intros Hstep xs. induction xs as [|x xs IH]; intros st Hi.
  - split; [exact Hi|]. exists []. cbn. rewrite app_nil_r. now split.
  - destruct (Hstep x st Hi) as [Hi1 [evs1 [E1 F1]]].
    destruct (IH _ Hi1) as [Hi2 [evs2 [E2 F2]]].
    unfold exec in *. cbn [snd fold_left] in *.
    split; [exact Hi2|]. exists (evs1 ++ evs2)%list.
    rewrite E2, E1, app_assoc. split; [reflexivity|].
    apply Forall_app. now split.
Qed.

Lemma setBroadcastMode_string_keeps_mode (s : string) :
  emits (fun c => is_mode_name (broadcastMode c)) broadcasts_in_a_mode
        (setBroadcastMode (JStr s)).
Proof.
  unfold setBroadcastMode, js_neq_str, js_eq_str. cbn [js_truthy js_String].
  destruct (s =? ""); cbn [negb]; [apply emits_throw|].
  destruct (s =? "async") eqn:Ea; cbn [negb andb].
  { apply String.eqb_eq in Ea. subst s.
    apply emits_bind; [|intros ?; apply emits_get_this].
    apply emits_modify. intros c _. left. reflexivity. }
  destruct (s =? "sync") eqn:Es; cbn [negb andb].
  { apply String.eqb_eq in Es. subst s.
    apply emits_bind; [|intros ?; apply emits_get_this].
    apply emits_modify. intros c _. right. left. reflexivity. }
  destruct (s =? "block") eqn:Eb; cbn [negb andb]; [|apply emits_throw].
  apply String.eqb_eq in Eb. subst s.
  apply emits_bind; [|intros ?; apply emits_get_this].
  apply emits_modify. intros c _. right. right. reflexivity.
Qed.

Lemma setBroadcastMode_emits_base (b : JsVal) (mode : JsVal) :
  emits (fun c => baseURI c = b) (goes_to b) (setBroadcastMode mode).
Proof.
  unfold setBroadcastMode. repeat emits_step. cbn. assumption.
Qed.

(** X1. Whatever the caller does with a client once built, as long as
    [setBroadcastMode] is given strings, the stored broadcast mode is one of
    the strings ["async"], ["sync"], ["block"], and every broadcast made
    carries one of them. *)
Theorem session_mode_always_valid
        (server : JsVal) (w w' : World) (c : SeeleClient) (cs : list Call) :
  new_SeeleClient respond server w = (Normal c, w') ->
  forallb string_modes cs = true ->
  is_mode_name (broadcastMode (this (run_calls respond cs (mkStore c w'))))
  /\ exists evs,
       calls (world (run_calls respond cs (mkStore c w'))) = (calls w' ++ evs)%list
       /\ Forall broadcasts_in_a_mode evs.
Proof.
  intros H Hcs. destruct (new_SeeleClient_fields server w w' c H) as [h [Hc _]].
  assert (Hi : is_mode_name (broadcastMode (this (mkStore c w'))))
    by (subst c; right; left; reflexivity).
  change (calls w') with (calls (world (mkStore c w'))).
  clear H Hc. generalize dependent (mkStore c w'). clear c w'.
  induction cs as [|x cs IH]; intros st Hi.
  - split; [exact Hi|]. exists []. cbn. rewrite app_nil_r. now split.
  - cbn [forallb] in Hcs. apply andb_true_iff in Hcs. destruct Hcs as [Hx Hcs].
    change (run_calls respond (x :: cs) st)
      with (run_calls respond cs (run_call respond x st)).
    assert (Hstep : emits (fun c => is_mode_name (broadcastMode c))
                          broadcasts_in_a_mode
                          (fun st => (Normal tt, run_call respond x st))).
    { destruct x as [op|mode]; cbn [run_call].
      - apply run_op_sends; try (intros; assumption).
        intros c0 call Hc0 Hs. destruct call; cbn in *; try exact Logic.I.
        destruct Hs as [_ Hs]. now subst.
      - destruct mode; try discriminate Hx.
        intros st0 Hi0. exact (setBroadcastMode_string_keeps_mode s st0 Hi0). }
    destruct (Hstep st Hi) as [Hi1 [evs1 [E1 F1]]].
    unfold exec in Hi1, E1. cbn [snd] in Hi1, E1.
    destruct (IH Hcs _ Hi1) as [Hi2 [evs2 [E2 F2]]].
    split; [exact Hi2|]. exists (evs1 ++ evs2)%list.
    rewrite E2, E1, app_assoc. split; [reflexivity|].
    apply Forall_app. now split.
Qed.

(** X2. A client only ever talks to the node it was built for: through any
    session of the public methods [baseURI] stays the constructor's
    argument, and every query, metadata fetch and broadcast is addressed to
    it. *)
Theorem session_talks_to_one_node
        (server : JsVal) (w w' : World) (c : SeeleClient) :
  new_SeeleClient respond server w = (Normal c, w') ->
  forall cs,
    baseURI (this (run_calls respond cs (mkStore c w'))) = server
    /\ exists evs,
         calls (world (run_calls respond cs (mkStore c w'))) = (calls w' ++ evs)%list
         /\ Forall (goes_to server) evs.
Proof.
  intros H cs. destruct (new_SeeleClient_fields server w w' c H) as [h [Hc _]].
  apply (session_emits (fun c => baseURI c = server) (goes_to server)
                       (run_call respond)).
  - intros [op|mode]; cbn [run_call].
    + apply run_op_sends; try (intros; assumption).
      intros c0 call Hi Hs. unfold goes_to.
      destruct call; cbn in *; try exact Logic.I; try congruence.
      destruct Hs as [Hs _]. congruence.
    + intros st Hi. exact (setBroadcastMode_emits_base server mode st Hi).
  - subst c. reflexivity.
Qed.

(** X3. Signing, sending, transferring and the queries only read the
    client: through any run of [prepareSignInfo], [sendTx], [transfer],
    [checkTxHash] and the eight queries, however each call completes, no
    field of the client changes (no chain ID is resolved on the way), and
    the call log only grows. *)
Theorem readers_leave_client_untouched (ops : list Op) (st : Store) :
  forallb is_reader ops = true ->
  this (run_ops respond ops st) = this st
  /\ exists evs, calls (world (run_ops respond ops st)) = (calls (world st) ++ evs)%list.
Proof.
  revert st. induction ops as [|op ops IH]; intros st Hr.
  - split; [reflexivity|]. exists []. cbn. now rewrite app_nil_r.
  - cbn [forallb] in Hr. apply andb_true_iff in Hr. destruct Hr as [Hop Hops].
    change (run_ops respond (op :: ops) st)
      with (run_ops respond ops (run_op respond op st)).
    destruct (reader_emits (fun c => c = this st) (fun _ => True) op Hop
                           (fun _ _ _ _ => Logic.I) st eq_refl)
      as [Hi [evs1 [E1 _]]].
    unfold exec in Hi, E1. cbn [snd] in Hi, E1.
    destruct (IH (run_op respond op st) Hops) as [Ht [evs2 E2]].
    split; [now rewrite Ht|].
    exists (evs1 ++ evs2)%list. now rewrite E2, E1, app_assoc.
Qed.

(** *** Further properties: the queries *)

Lemma return_data_total (res : JsVal) (st : Store) :
  return_data res st = (Normal (data_of res), st).
Proof.
  unfold return_data, data_of.
  destruct (js_truthy res) eqn:Hres; cbn [andb]; [|reflexivity].
  destruct (js_truthy (js_field res "data")); [|reflexivity].
  unfold lift. now rewrite (js_prop_defined res "data" (truthy_defined res Hres)).
Qed.

Lemma return_data_result_total (res : JsVal) (st : Store) :
  return_data_result res st = (Normal (result_of res), st).
Proof.
  unfold return_data_result, result_of.
  destruct (js_truthy res) eqn:Hres; cbn [andb]; [|reflexivity].
  destruct (js_truthy (js_field res "data")) eqn:Hdata; [|reflexivity].
  unfold bind, lift.
  rewrite (js_prop_defined res "data" (truthy_defined res Hres)).
  now rewrite (js_prop_defined _ "result" (truthy_defined _ Hdata)).
Qed.

Lemma query_shape_data (path : string) (timeout : JsVal) (st : Store) :
  (c <- get_this ;;
   res <- call respond (tx_getTx (JStr path) (baseURI c)
                                 (default_arg timeout (JNum 2000))) ;;
   return_data res) st
  = query_outcome respond path timeout data_of st.
Proof.
  unfold query_outcome, bind, get_this, call. cbv zeta.
  destruct (respond _ _) as [res|e]; [|reflexivity].
  now rewrite return_data_total.
Qed.

Lemma query_shape_result (path : string) (timeout : JsVal) (st : Store) :
  (c <- get_this ;;
   res <- call respond (tx_getTx (JStr path) (baseURI c)
                                 (default_arg timeout (JNum 2000))) ;;
   return_data_result res) st
  = query_outcome respond path timeout result_of st.
Proof.
  unfold query_outcome, bind, get_this, call. cbv zeta.
  destruct (respond _ _) as [res|e]; [|reflexivity].
  now rewrite return_data_result_total.
Qed.

(** X4. Each of the eight queries makes exactly one request, to its own
    path of the client's node and with the timeout defaulting to [2000];
    it passes a transport error on unchanged and never throws on the answer
    itself, whatever its shape: it hands back the answer's [data] (the
    block and validator queries) or [data.result] (account, balances,
    supply) when the answer and its [data] are truthy, and [undefined]
    otherwise.  [getValidatorSet] asks for ["/validatorsets//" ++ height],
    with two slashes. *)
Theorem queries_unwrap_or_undefined
        (height address denom timeout : JsVal) (st : Store) :
  getLatestBlock respond timeout st =
    query_outcome respond "/blocks/latest" timeout data_of st
  /\ getBlock respond height timeout st =
       query_outcome respond ("/blocks/" ++ js_String height) timeout data_of st
  /\ getLatestValidatorSet respond timeout st =
       query_outcome respond "/validatorsets/latest" timeout data_of st
  /\ getValidatorSet respond height timeout st =
       query_outcome respond ("/validatorsets//" ++ js_String height) timeout data_of st
  /\ getAccount respond address timeout st =
       query_outcome respond ("/auth/accounts/" ++ js_String address) timeout result_of st
  /\ getBalances respond address timeout st =
       query_outcome respond ("/bank/balances/" ++ js_String address) timeout result_of st
  /\ getSupply respond timeout st =
       query_outcome respond "/supply/total" timeout result_of st
  /\ getSupplyOf respond denom timeout st =
       query_outcome respond ("/supply/total/" ++ js_String denom) timeout result_of st.
Proof.
  repeat split;
    first [ exact (query_shape_data _ timeout st)
          | exact (query_shape_result _ timeout st) ].
Qed.

(** *** Further properties: checkTxHash on any answer *)

(** X5. Whenever the hash lookup itself returns an answer [res],
    [checkTxHash] completes as the read [res.data] does: with the answer's
    [data] when [res] is an object, and with a [TypeError], not with the
    "tx not found" error, when the answer is [null] or [undefined].  The
    rejection line is written exactly when the result code is truthy, so a
    missing code and the number [0] pass silently while the string ["0"] is
    reported; at most one line is written. *)
Theorem checkTxHash_on_any_answer (txHash timeout : JsVal) (st : Store) (res : JsVal) :
  respond (calls (world st))
          (tx_getTx (JStr (api.txs ++ "/" ++ js_String txHash))
                    (baseURI (this st))
                    (default_arg timeout (JNum 10000))) = Normal res ->
  checkTxHash respond txHash timeout st =
    (js_prop res "data",
     mkStore (this st)
             (mkWorld
                (calls (world st)
                 ++ [tx_getTx (JStr (api.txs ++ "/" ++ js_String txHash))
                              (baseURI (this st))
                              (default_arg timeout (JNum 10000))])
                (if js_truthy (lodash_get res "data.code")
                 then console (world st) ++ [rejection_line res]
                 else console (world st)))).
Proof.
  intros Hres. unfold checkTxHash. js_unfold. rewrite Hres. js_unfold.
  destruct (js_truthy (lodash_get res "data.code")); js_unfold;
    destruct (js_prop res "data"); reflexivity.
Qed.

(** *** Further properties: a client without a wallet *)

(** X6. On a client whose wallet is unset, [transfer] and the fetching
    branch of [prepareSignInfo] throw a [TypeError] (the read of
    [wallet.address]) and leave the store as it was, no call made;
    [sendTx] in that branch throws it after building the envelope, before
    any request to the node and before signing.  With a truthy sequence
    and an account number override, however, [sendTx] goes on to sign with
    the unset wallet. *)
Theorem unset_wallet_behaviour (st : Store) (e : JsVal) :
  js_prop (wallet (this st)) "address" = Throw e ->
  (forall recipient coins fee sequence,
      transfer respond recipient coins fee sequence st = (Throw e, st))
  /\ (forall sequence,
        js_truthy sequence && js_neq_null (accNum (this st)) = false ->
        prepareSignInfo respond sequence st = (Throw e, st))
  /\ (forall msgs fee sequence rawTx,
        js_truthy sequence && js_neq_null (accNum (this st)) = false ->
        respond (calls (world st)) (msg_cosmos_newStdTx msgs fee) = Normal rawTx ->
        sendTx respond msgs fee sequence st =
          (Throw e, logged (msg_cosmos_newStdTx msgs fee) st))
  /\ (forall msgs fee sequence rawTx,
        js_truthy sequence && js_neq_null (accNum (this st)) = true ->
        respond (calls (world st)) (msg_cosmos_newStdTx msgs fee) = Normal rawTx ->
        exists tail,
          calls (world (exec (sendTx respond msgs fee sequence) st)) =
            (calls (world st)
             ++ [msg_cosmos_newStdTx msgs fee;
                 tx_signTx rawTx
                           (mkSignInfo (chainID (this st))
                                       (JStr (js_String (accNum (this st))))
                                       (JStr (js_String sequence)))
                           (wallet (this st))]
             ++ tail)%list).
Proof.
  intros Hw. split; [|split; [|split]].
  - intros recipient coins fee sequence. unfold transfer. cbv zeta.
    unfold bind at 1. unfold get_this at 1.
    unfold bind at 1. unfold lift at 1. rewrite Hw. reflexivity.
  - intros sequence Hcond. unfold prepareSignInfo. js_unfold.
    rewrite Hcond, Hw. reflexivity.
  - intros msgs fee sequence rawTx Hcond Hraw.
    rewrite (sendTx_unfold _ _ _ _ _ Hraw).
    unfold bind at 1. unfold prepareSignInfo. js_unfold.
    rewrite Hcond, Hw. reflexivity.
  - intros msgs fee sequence rawTx Hcond Hraw.
    unfold exec. rewrite (sendTx_unfold _ _ _ _ _ Hraw).
    unfold bind at 1.
    rewrite (prepareSignInfo_local sequence
               (logged (msg_cosmos_newStdTx msgs fee) st) Hcond).
    js_unfold.
    destruct (respond _ (tx_signTx _ _ _)) as [signedTx|e1]; js_unfold.
    + eexists [_]. cbn. rewrite <- !app_assoc. reflexivity.
    + exists []. cbn. rewrite <- !app_assoc. reflexivity.
Qed.

(** *** Further properties: how sendTx completes *)

Lemma prepareSignInfo_frame (sequence : JsVal) (st : Store) :
  this (exec (prepareSignInfo respond sequence) st) = this st
  /\ console (world (exec (prepareSignInfo respond sequence) st)) = console (world st).
Proof.
  unfold prepareSignInfo. js_unfold.
  destruct (js_truthy sequence && js_neq_null (accNum (this st))); [now split|].
  destruct (js_prop (wallet (this st)) "address") as [address|e]; [|now split].
  destruct (respond _ _) as [meta|e]; [|now split]. js_unfold.
  destruct (js_neq_null (accNum (this st))), (js_truthy sequence); cbn;
    repeat (destruct (js_prop meta _); cbn); now split.
Qed.

(** A throw of [prepareSignInfo] is the throw of its last call, or that of
    a property read. *)
Lemma prepareSignInfo_throw (sequence : JsVal) (st st' : Store) (e : JsVal) :
  prepareSignInfo respond sequence st = (Throw e, st') ->
  (exists call,
      calls (world st') = (calls (world st) ++ [call])%list
      /\ respond (calls (world st)) call = Throw e)
  \/ (exists v k, js_prop v k = Throw e).
Proof.
  unfold prepareSignInfo. js_unfold.
  destruct (js_truthy sequence && js_neq_null (accNum (this st))); [discriminate|].
  destruct (js_prop (wallet (this st)) "address") as [address|e0] eqn:Haddr.
  - destruct (respond _ _) as [meta|e0] eqn:Hmeta.
    + js_unfold.
      destruct (js_neq_null (accNum (this st))), (js_truthy sequence); cbn;
        repeat match goal with
               | |- context [js_prop meta ?k] =>
                   let E := fresh "E" in
                   destruct (js_prop meta k) eqn:E; cbn; try discriminate
               end;
        intros H; inversion H; subst;
        match goal with
        | E : js_prop ?v ?k = Throw _ |- _ => right; exists v, k; exact E
        end.
    + intros H. inversion H; subst. left. eexists. split; [reflexivity|exact Hmeta].
  - intros H. inversion H; subst. right. eexists. eexists. exact Haddr.
Qed.

(** X7. When [sendTx] returns, what it returns is the answer of the
    broadcast, as it came: the last call logged is the one broadcast of the
    run, addressed to the client's node in the client's stored mode, and
    its answer is the result.  The client and the console are as before. *)
Theorem sendTx_returns_broadcast_answer
        (msgs fee sequence : JsVal) (st st' : Store) (r : JsVal) :
  sendTx respond msgs fee sequence st = (Normal r, st') ->
  this st' = this st
  /\ console (world st') = console (world st)
  /\ exists prefix signedTx,
       calls (world st') =
         (prefix ++ [tx_broadcastTx signedTx (baseURI (this st))
                                    (broadcastMode (this st))])%list
       /\ respond prefix (tx_broadcastTx signedTx (baseURI (this st))
                                         (broadcastMode (this st))) = Normal r.
Proof.
  unfold sendTx. unfold bind at 1. unfold call at 1.
  destruct (respond (calls (world st)) (msg_cosmos_newStdTx msgs fee))
    as [rawTx|e]; [|discriminate].
  set (st1 := mkStore _ _).
  unfold bind at 1.
  destruct (prepareSignInfo_frame sequence st1) as [Ft Fc]. unfold exec in Ft, Fc.
  destruct (prepareSignInfo respond sequence st1) as [[info|e] st2];
    [|discriminate].
  cbn [snd] in Ft, Fc. js_unfold.
  destruct (respond _ (tx_signTx _ _ _)) as [signedTx|e]; [|discriminate].
  js_unfold.
  destruct (respond _ (tx_broadcastTx _ _ _)) as [r'|e] eqn:Hb; [|discriminate].
  intros H. inversion H; subst r' st'. clear H. cbn.
  rewrite Ft in *. subst st1. cbn in *.
  split; [reflexivity|]. split; [exact Fc|].
  eexists. exists signedTx. split; [reflexivity|exact Hb].
Qed.

(** X8. [sendTx] wraps no error: when it throws, the value thrown is the
    one its last logged call threw (the envelope builder, the metadata
    fetch, the signer or the broadcast), or the [TypeError] of a property
    read on a missing wallet or missing metadata; the client is as before,
    and nothing is sent after the failure. *)
Theorem sendTx_throws_unwrapped
        (msgs fee sequence : JsVal) (st st' : Store) (e : JsVal) :
  sendTx respond msgs fee sequence st = (Throw e, st') ->
  this st' = this st
  /\ ((exists prefix call,
         calls (world st') = (prefix ++ [call])%list
         /\ respond prefix call = Throw e)
      \/ (exists v k, js_prop v k = Throw e)).
Proof.
  unfold sendTx. unfold bind at 1. unfold call at 1.
  destruct (respond (calls (world st)) (msg_cosmos_newStdTx msgs fee))
    as [rawTx|e0] eqn:Hraw.
  2:{ intros H. inversion H; subst. split; [reflexivity|].
      left. eexists. eexists. split; [reflexivity|exact Hraw]. }
  set (st1 := mkStore _ _).
  unfold bind at 1.
  destruct (prepareSignInfo_frame sequence st1) as [Ft _]. unfold exec in Ft.
  destruct (prepareSignInfo respond sequence st1) as [[info|e0] st2] eqn:Hp;
    cbn [snd] in Ft.
  2:{ intros H. inversion H; subst e0 st'. split; [exact Ft|].
      destruct (prepareSignInfo_throw _ _ _ _ Hp) as [[call [Hc Hr]]|Hread].
      - left. eexists. exists call. split; [exact Hc|exact Hr].
      - right. exact Hread. }
  js_unfold.
  destruct (respond _ (tx_signTx _ _ _)) as [signedTx|e0] eqn:Hs.
  2:{ intros H. inversion H; subst. cbn. split; [exact Ft|].
      left. eexists. eexists. split; [reflexivity|exact Hs]. }
  js_unfold.
  destruct (respond _ (tx_broadcastTx _ _ _)) as [r'|e0] eqn:Hb; [discriminate|].
  intros H. inversion H; subst. cbn. split; [exact Ft|].
  left. eexists. eexists. split; [reflexivity|exact Hb].
Qed.

(** *** Further properties: the wallet, the chain ID, the account number *)

(** X9. With a truthy mnemonic [setWallet] makes one call, the derivation
    with the password passed (the empty string when none is), the prefix
    ["seele"] and the path ["m/44'/118'/0'/0/0"] when the legacy flag is
    truthy, ["m/44'/513'/0'/0/0"] otherwise.  When the derivation throws,
    [setWallet] throws the same value and the client keeps the wallet it
    had; when it returns, the result is the client's wallet from then on
    and no other field has changed. *)
Theorem setWallet_derives_or_keeps
        (mnemonic password legacy : JsVal) (st : Store) :
  js_truthy mnemonic = true ->
  let derivation :=
    sig_createWalletFromMnemonic
      mnemonic
      (match password with JUndefined => JStr "" | _ => password end)
      (JStr "seele")
      (JStr (if js_truthy legacy then "m/44'/118'/0'/0/0" else "m/44'/513'/0'/0/0")) in
  calls (world (exec (setWallet respond mnemonic password legacy) st)) =
    (calls (world st) ++ [derivation])%list
  /\ (forall e,
        respond (calls (world st)) derivation = Throw e ->
        fst (setWallet respond mnemonic password legacy st) = Throw e
        /\ this (exec (setWallet respond mnemonic password legacy) st) = this st)
  /\ (forall w,
        respond (calls (world st)) derivation = Normal w ->
        fst (setWallet respond mnemonic password legacy st)
          = Normal (this (exec (setWallet respond mnemonic password legacy) st))
        /\ wallet (this (exec (setWallet respond mnemonic password legacy) st)) = w
        /\ baseURI (this (exec (setWallet respond mnemonic password legacy) st))
             = baseURI (this st)
        /\ broadcastMode (this (exec (setWallet respond mnemonic password legacy) st))
             = broadcastMode (this st)
        /\ hard (this (exec (setWallet respond mnemonic password legacy) st))
             = hard (this st)
        /\ chainID (this (exec (setWallet respond mnemonic password legacy) st))
             = chainID (this st)
        /\ accNum (this (exec (setWallet respond mnemonic password legacy) st))
             = accNum (this st)).
Proof.
  intros Hm derivation. subst derivation.
  assert (Hl : js_truthy (default_arg legacy (JBool false)) = js_truthy legacy)
    by (destruct legacy; reflexivity).
  change (match password with JUndefined => JStr "" | _ => password end)
    with (default_arg password (JStr "")).
  unfold setWallet. cbv zeta. rewrite Hm, Hl. cbn [negb]. js_unfold.
  change SEELE_PREFIX with "seele".
  change DERIVATION_PATH_LEGACY with "m/44'/118'/0'/0/0".
  change DERIVATION_PATH with "m/44'/513'/0'/0/0".
  split; [|split].
  - destruct (respond _ _); reflexivity.
  - intros e He. rewrite He. split; reflexivity.
  - intros w Hw. rewrite Hw. repeat split.
Qed.

Lemma lodash_get_network_walk (res : JsVal) :
  has_own res "data.node_info.network" = false ->
  lodash_get res "data.node_info.network" =
    match res with
    | JUndefined | JNull => JUndefined
    | _ =>
        match js_field res "data" with
        | JUndefined | JNull => JUndefined
        | data =>
            match js_field data "node_info" with
            | JUndefined | JNull => JUndefined
            | node_info => js_field node_info "network"
            end
        end
    end.
Proof.
  intros H. unfold lodash_get. rewrite H.
  change (split_dots "" "data.node_info.network")
    with ["data"; "node_info"; "network"].
  destruct res; try reflexivity;
    cbn [baseGet];
    match goal with
    | |- context [js_field ?v "data"] => destruct (js_field v "data")
    end; try reflexivity;
    match goal with
    | |- context [js_field ?v "node_info"] => destruct (js_field v "node_info")
    end; reflexivity.
Qed.

(** X10. A failed [initChain] can be tried again: when no chain ID is set
    and the node-info query throws, [initChain] throws the same value and
    leaves the client as it was, so the next call makes the query anew.
    When the query returns, the chain ID becomes what the answer holds
    under [data], [node_info], [network] ([undefined] when a step of that
    path is missing), and no other field changes. *)
Theorem initChain_failure_retries (st : Store) :
  js_truthy (chainID (this st)) = false ->
  (forall e,
      respond (calls (world st))
              (tx_getTx (JStr "/node_info") (baseURI (this st)) JUndefined) = Throw e ->
      initChain respond st =
        (Throw e,
         mkStore (this st)
                 (mkWorld (calls (world st)
                           ++ [tx_getTx (JStr "/node_info") (baseURI (this st))
                                        JUndefined])
                          (console (world st))))
      /\ calls (world (exec (initChain respond) (exec (initChain respond) st))) =
           (calls (world st)
            ++ [tx_getTx (JStr "/node_info") (baseURI (this st)) JUndefined;
                tx_getTx (JStr "/node_info") (baseURI (this st)) JUndefined])%list)
  /\ (forall res,
        respond (calls (world st))
                (tx_getTx (JStr "/node_info") (baseURI (this st)) JUndefined)
          = Normal res ->
        has_own res "data.node_info.network" = false ->
        chainID (this (exec (initChain respond) st)) =
          match res with
          | JUndefined | JNull => JUndefined
          | _ =>
              match js_field res "data" with
              | JUndefined | JNull => JUndefined
              | data =>
                  match js_field data "node_info" with
                  | JUndefined | JNull => JUndefined
                  | node_info => js_field node_info "network"
                  end
              end
          end
        /\ baseURI (this (exec (initChain respond) st)) = baseURI (this st)
        /\ broadcastMode (this (exec (initChain respond) st)) = broadcastMode (this st)
        /\ hard (this (exec (initChain respond) st)) = hard (this st)
        /\ accNum (this (exec (initChain respond) st)) = accNum (this st)
        /\ wallet (this (exec (initChain respond) st)) = wallet (this st)
        /\ fst (initChain respond st) = Normal (this (exec (initChain respond) st))).
Proof.
  intros Hunset. split.
  - intros e He.
    assert (E : initChain respond st =
                (Throw e, logged (tx_getTx (JStr "/node_info") (baseURI (this st))
                                           JUndefined) st)).
    { unfold initChain. js_unfold. rewrite Hunset. cbn [negb]. js_unfold.
      change api.nodeInfo with "/node_info". rewrite He. reflexivity. }
    split; [exact E|].
    unfold exec at 2. rewrite E. cbn [snd].
    unfold exec, initChain. js_unfold. rewrite Hunset. cbn [negb]. js_unfold.
    change api.nodeInfo with "/node_info".
    match goal with
    | |- context [respond ?h ?q] => destruct (respond h q)
    end; cbn; now rewrite <- app_assoc.
  - intros res Hres Hown. unfold exec, initChain. js_unfold.
    rewrite Hunset. cbn [negb]. js_unfold.
    change api.nodeInfo with "/node_info". rewrite Hres. js_unfold.
    rewrite (lodash_get_network_walk res Hown). repeat split.
Qed.

Lemma prepareSignInfo_account_number (sequence : JsVal) (st st' : Store) (info : JsVal) :
  js_neq_null (accNum (this st)) = true ->
  prepareSignInfo respond sequence st = (Normal info, st') ->
  js_field info "account_number" = JStr (js_String (accNum (this st))).
Proof.
  intros Hacc. unfold prepareSignInfo. js_unfold.
  destruct (js_truthy sequence && js_neq_null (accNum (this st))).
  - intros H; inversion H; reflexivity.
  - destruct (js_prop (wallet (this st)) "address") as [address|e]; [|discriminate].
    destruct (respond _ _) as [meta|e]; [|discriminate]. js_unfold.
    rewrite Hacc. js_unfold.
    destruct (js_truthy sequence); cbn;
      repeat (destruct (js_prop meta _); cbn; try discriminate);
      intros H; inversion H; reflexivity.
Qed.

(** X11. An account number set by hand wins in all signing that follows:
    after [setAccountNumber(n)] has returned, the stored override is the
    string [String(n)], nothing else of the store has changed, and every
    SignInfo that [prepareSignInfo] returns carries [String(n)] as its
    account number, whatever metadata the node reports; with a truthy
    sequence no fetch is made at all. *)
Theorem setAccountNumber_takes_precedence
        (n : JsVal) (st st1 : Store) (c : SeeleClient) :
  setAccountNumber n st = (Normal c, st1) ->
  st1 = mkStore (set_accNum (JStr (js_String n)) (this st)) (world st)
  /\ c = this st1
  /\ (forall sequence info st2,
        prepareSignInfo respond sequence st1 = (Normal info, st2) ->
        js_field info "account_number" = JStr (js_String n))
  /\ (forall sequence,
        js_truthy sequence = true ->
        prepareSignInfo respond sequence st1 =
          (Normal (mkSignInfo (chainID (this st)) (JStr (js_String n))
                              (JStr (js_String sequence))),
           st1)).
Proof.
  unfold setAccountNumber.
  destruct (js_truthy n); cbn [negb]; js_unfold; [|discriminate].
  intros H. inversion H; subst c st1. clear H.
  split; [reflexivity|]. split; [reflexivity|]. split.
  - intros sequence info st2 Hp.
    exact (prepareSignInfo_account_number
             sequence (mkStore (set_accNum (JStr (js_String n)) (this st)) (world st))
             st2 info eq_refl Hp).
  - intros sequence Hseq.
    rewrite prepareSignInfo_local; [reflexivity|].
    cbn [this accNum set_accNum js_neq_null]. now rewrite Hseq.
Qed.

(** X12. [new SeeleClient(server)] yields a client exactly when [server]
    is truthy and the [Hard] constructor returns; the client then holds
    [server] itself as [baseURI], mode ["sync"] and the [Hard] built, and
    the one call made is that construction.  When [Hard] throws, [new]
    throws the same value. *)
Theorem new_SeeleClient_succeeds_iff
        (server : JsVal) (w w' : World) (c : SeeleClient) :
  (new_SeeleClient respond server w = (Normal c, w') <->
   js_truthy server = true
   /\ exists h,
       respond (calls w) new_Hard = Normal h
       /\ c = mkClient server (JStr "sync") h JUndefined JUndefined JUndefined
       /\ w' = mkWorld (calls w ++ [new_Hard]) (console w))
  /\ (forall e,
        js_truthy server = true ->
        respond (calls w) new_Hard = Throw e ->
        fst (new_SeeleClient respond server w) = Throw e).
Proof.
  unfold new_SeeleClient, constructor. split; [split|].
  - destruct (js_truthy server); cbn [negb]; js_unfold; [|discriminate].
    destruct (respond (calls w) new_Hard) as [h|e] eqn:Hh; [|discriminate].
    intros H. inversion H. split; [reflexivity|]. exists h. repeat split.
  - intros [Hs [h [Hh [Hc Hw]]]]. rewrite Hs. cbn [negb]. js_unfold.
    rewrite Hh. subst. reflexivity.
  - intros e Hs Hh. rewrite Hs. cbn [negb]. js_unfold. now rewrite Hh.
Qed.

(** *** Further properties: a chain ID once set *)

Lemma initChain_emits_set (v : JsVal) :
  js_truthy v = true ->
  emits (fun c => chainID c = v) (fun call => is_node_info_query call = false)
        (initChain respond).
Proof.
  intros Hv st Hi.
  assert (E : js_truthy (chainID (this st)) = true) by now rewrite Hi.
  unfold exec. rewrite (initChain_set st E). cbn [snd].
  split; [exact Hi|]. exists []. rewrite app_nil_r. now split.
Qed.

Lemma run_call_keeps_chainID (v : JsVal) (c : Call) :
  js_truthy v = true ->
  no_setChainID c = true ->
  emits (fun cl => chainID cl = v) (fun call => is_node_info_query call = false)
        (fun st => (Normal tt, run_call respond c st)).
Proof.
  intros Hv Hc.
  destruct c as [op|mode]; [destruct op; try discriminate Hc|];
    cbn [run_call run_op];
    match goal with
    | |- emits ?Inv ?P (fun st => (_, exec ?m st)) =>
        cut (emits Inv P m); [intros H st Hi; exact (H st Hi)|]
    end.
  1: now apply initChain_emits_set.
  all: unfold setAccountNumber, setWallet, setBroadcastMode, getLatestBlock,
      getBlock, getLatestValidatorSet, getValidatorSet, checkTxHash, getAccount,
      getBalances, getSupply, getSupplyOf, transfer, sendTx, prepareSignInfo,
      return_data, return_data_result;
    cbv zeta; repeat emits_step;
    first [ reflexivity | cbn; assumption ].
Qed.

(** X13. A chain ID once set stays: from a client whose chain ID is truthy,
    through any session of the public methods without [setChainID], the
    chain ID is the same at the end, and no node-info query is made,
    however often [initChain] is called and whatever else is sent. *)
Theorem chainID_sticks (cs : list Call) (st : Store) :
  js_truthy (chainID (this st)) = true ->
  forallb no_setChainID cs = true ->
  chainID (this (run_calls respond cs st)) = chainID (this st)
  /\ exists evs,
       calls (world (run_calls respond cs st)) = (calls (world st) ++ evs)%list
       /\ Forall (fun call => is_node_info_query call = false) evs.
Proof.
  intros Hset. remember (chainID (this st)) as v eqn:Hv. symmetry in Hv.
  revert st Hv. induction cs as [|c cs IH]; intros st Hv Hcs.
  - split; [exact Hv|]. exists []. cbn. rewrite app_nil_r. now split.
  - cbn [forallb] in Hcs. apply andb_true_iff in Hcs. destruct Hcs as [Hc Hcs].
    change (run_calls respond (c :: cs) st)
      with (run_calls respond cs (run_call respond c st)).
    destruct (run_call_keeps_chainID v c Hset Hc st Hv) as [Hi [evs1 [E1 F1]]].
    unfold exec in Hi, E1. cbn [snd] in Hi, E1.
    destruct (IH _ Hi Hcs) as [Ht [evs2 [E2 F2]]].
    split; [exact Ht|]. exists (evs1 ++ evs2)%list.
    rewrite E2, E1, app_assoc. split; [reflexivity|].
    apply Forall_app. now split.
Qed.

(** *** Further properties: what signing never asks, and the console *)

(** X14. Signing never resolves the chain ID on its own: [prepareSignInfo],
    [sendTx] and [transfer] make no [tx.getTx] request at all, so no
    node-info query; the calls they add to the log are the builders, the
    metadata fetch, the signer and the broadcast. *)
Theorem signing_never_queries (recipient coins msgs fee sequence : JsVal) (st : Store) :
  (exists evs,
      calls (world (exec (prepareSignInfo respond sequence) st)) =
        (calls (world st) ++ evs)%list
      /\ Forall (fun call => is_getTx call = false) evs)
  /\ (exists evs,
        calls (world (exec (sendTx respond msgs fee sequence) st)) =
          (calls (world st) ++ evs)%list
        /\ Forall (fun call => is_getTx call = false) evs)
  /\ (exists evs,
        calls (world (exec (transfer respond recipient coins fee sequence) st)) =
          (calls (world st) ++ evs)%list
        /\ Forall (fun call => is_getTx call = false) evs).
Proof.
  repeat split;
    match goal with
    | |- exists evs, calls (world (exec ?m st)) = _ /\ _ =>
        assert (H : emits (fun _ => True) (fun call => is_getTx call = false) m);
        [ unfold transfer, sendTx, prepareSignInfo; cbv zeta;
          repeat emits_step; first [reflexivity | exact Logic.I]
        | exact (proj2 (H st Logic.I)) ]
    end.
Qed.

Section Quiet.

Lemma quiet_pure {A : Type} (a : A) : quiet (pure a).
Proof. intros st. reflexivity. Qed.

Lemma quiet_throw {A : Type} (e : JsVal) : quiet (@throw A e).
Proof. intros st. reflexivity. Qed.

Lemma quiet_lift {A : Type} (c : Completion A) : quiet (lift c).
Proof. intros st. reflexivity. Qed.

Lemma quiet_get_this : quiet get_this.
Proof. intros st. reflexivity. Qed.

Lemma quiet_modify (f : SeeleClient -> SeeleClient) : quiet (modify_this f).
Proof. intros st. reflexivity. Qed.

Lemma quiet_call (c : ExtCall) : quiet (call respond c).
Proof. intros st. reflexivity. Qed.

Lemma quiet_bind {A B : Type} (m : Js A) (k : A -> Js B) :
  quiet m -> (forall a, quiet (k a)) -> quiet (bind m k).
Proof.
  unfold quiet, exec, bind. intros Hm Hk st. specialize (Hm st).
  destruct (m st) as [[a|e] st1]; cbn [snd] in *; [|exact Hm].
  now rewrite Hk.
Qed.

End Quiet.

Ltac quiet_step :=
  lazymatch goal with
  | |- quiet (pure _) => apply quiet_pure
  | |- quiet (throw _) => apply quiet_throw
  | |- quiet (lift _) => apply quiet_lift
  | |- quiet get_this => apply quiet_get_this
  | |- quiet (modify_this _) => apply quiet_modify
  | |- quiet (call _ _) => apply quiet_call
  | |- quiet (bind _ _) => apply quiet_bind; [|intros ?]
  | |- quiet (if ?b then _ else _) => destruct b
  end.

Lemma run_call_quiet (c : Call) (st : Store) :
  is_checkTxHash c = false ->
  console (world (run_call respond c st)) = console (world st).
Proof.
  intros Hc.
  destruct c as [op|mode]; [destruct op; try discriminate Hc|];
    cbn [run_call run_op];
    match goal with
    | |- console (world (exec ?m st)) = _ =>
        cut (quiet m); [intros H; exact (H st)|]
    end;
    unfold initChain, setChainID, setAccountNumber, setWallet, setBroadcastMode,
      getLatestBlock, getBlock, getLatestValidatorSet, getValidatorSet,
      getAccount, getBalances, getSupply, getSupplyOf, transfer, sendTx,
      prepareSignInfo, return_data, return_data_result;
    cbv zeta; repeat quiet_step.
Qed.

Lemma checkTxHash_console (txHash timeout : JsVal) (st : Store) :
  console (world (exec (checkTxHash respond txHash timeout) st)) = console (world st)
  \/ exists line,
       console (world (exec (checkTxHash respond txHash timeout) st)) =
         (console (world st) ++ [line])%list.
Proof.
  unfold checkTxHash, exec. js_unfold.
  destruct (respond _ _) as [res|e]; js_unfold; [|now left].
  destruct (js_truthy (lodash_get res "data.code")); js_unfold;
    destruct (js_prop res "data"); cbn; eauto.
Qed.

(** X15. The client writes to the console in [checkTxHash] only, and there
    at most one line per call: through any session the console grows by no
    more lines than the session has [checkTxHash] calls, and a session
    without one leaves the console as it was. *)
Theorem console_only_in_checkTxHash (cs : list Call) (st : Store) :
  (List.length (console (world (run_calls respond cs st)))
   <= List.length (console (world st))
      + List.length (filter is_checkTxHash cs))%nat
  /\ (forallb (fun c => negb (is_checkTxHash c)) cs = true ->
      console (world (run_calls respond cs st)) = console (world st)).
Proof.
  revert st. induction cs as [|c cs IH]; intros st.
  - cbn. split; [lia|reflexivity].
  - change (run_calls respond (c :: cs) st)
      with (run_calls respond cs (run_call respond c st)).
    destruct (IH (run_call respond c st)) as [IHlen IHeq].
    cbn [filter forallb]. destruct (is_checkTxHash c) eqn:Hc.
    + split; [|discriminate].
      destruct c as [op|mode]; [destruct op; try discriminate Hc|discriminate Hc].
      cbn [run_call run_op] in *.
      destruct (checkTxHash_console txHash timeout st) as [E|[line E]];
        rewrite E in IHlen; [|rewrite length_app in IHlen]; cbn in *; lia.
    + rewrite (run_call_quiet c st Hc) in IHlen, IHeq.
      split; [cbn; lia|]. cbn [negb andb]. exact IHeq.
Qed.

End ClientFacts.

(** ** Worked examples *)

(** C1, as the spec states it, fails: on a client whose chain ID was never
    resolved, [prepareSignInfo] returns a SignInfo, with [chain_id]
    [undefined], and [sendTx] goes on to sign with it. *)
Lemma prepareSignInfo_returns_with_chainID_unset :
  chainID (this demo_unset) = JUndefined
  /\ prepareSignInfo demo_node (JStr "2") demo_unset =
       (Normal (mkSignInfo JUndefined (JStr "5") (JStr "2")), demo_unset)
  /\ existsb signs_without_chainID
             (calls (world (exec (sendTx demo_node (JArr []) DEFAULT_FEE (JStr "2"))
                                 demo_unset))) = true.
Proof. repeat split. Qed.

Lemma prepareSignInfo_ignores_chainID_witness :
  prepareSignInfo demo_node (JStr "2") demo_manual =
    (Normal (mkSignInfo (JStr "seele-1") (JStr "5") (JStr "2")), demo_manual)
  /\ js_field (mkSignInfo (JStr "seele-1") (JStr "5") (JStr "2")) "chain_id"
       = chainID (this demo_manual)
  /\ prepareSignInfo demo_node (JStr "2") (with_chainID JUndefined demo_manual) =
       (Normal (mkSignInfo JUndefined (JStr "5") (JStr "2")),
        with_chainID JUndefined demo_manual).
Proof.
  split; [reflexivity|].
  pose proof (prepareSignInfo_ignores_chainID
                demo_node (JStr "2") demo_manual demo_manual
                (mkSignInfo (JStr "seele-1") (JStr "5") (JStr "2")) eq_refl) as W.
  split; [exact (proj1 W)|exact (proj2 W JUndefined)].
Defined.

Lemma prepareSignInfo_manual_no_fetch_witness :
  js_truthy (JStr "2") = true
  /\ js_neq_null (accNum (this demo_manual)) = true
  /\ exists info,
       prepareSignInfo demo_node (JStr "2") demo_manual = (Normal info, demo_manual)
       /\ info = JObj [("chain_id", JStr "seele-1");
                       ("account_number", JStr "5");
                       ("sequence", JStr "2")]
       /\ js_field info "chain_id" = JStr "seele-1"
       /\ js_field info "account_number" = JStr "5"
       /\ js_field info "sequence" = JStr "2"
       /\ calls (world (exec (prepareSignInfo demo_node (JStr "2")) demo_manual))
            = calls (world demo_manual)
       /\ count_calls is_network_call
                      (calls (world (exec (prepareSignInfo demo_node (JStr "2"))
                                          demo_manual)))
            = count_calls is_network_call (calls (world demo_manual)).
Proof.
  split; [reflexivity|]. split; [reflexivity|].
  exact (proj1 (prepareSignInfo_manual_no_fetch demo_node (JStr "2") demo_manual
                                                eq_refl eq_refl)).
Defined.

Lemma prepareSignInfo_merges_fieldwise_witness :
  js_truthy JUndefined && js_neq_null (accNum (this demo_unset)) = false
  /\ js_prop (wallet (this demo_unset)) "address" = Normal demo_address
  /\ demo_node (calls (world demo_unset))
               (tx_loadMetaData demo_address (baseURI (this demo_unset)))
       = Normal (JObj [("account_number", JStr "7"); ("sequence", JStr "12")])
  /\ exists info,
       prepareSignInfo demo_node JUndefined demo_unset =
         (Normal info,
          logged (tx_loadMetaData demo_address (baseURI (this demo_unset))) demo_unset)
       /\ js_field info "chain_id" = JUndefined
       /\ js_field info "account_number" = JStr "5"
       /\ js_field info "sequence" = JStr "12".
Proof.
  split; [reflexivity|]. split; [reflexivity|]. split; [reflexivity|].
  exact (prepareSignInfo_merges_fieldwise
           demo_node JUndefined demo_unset demo_address
           (JObj [("account_number", JStr "7"); ("sequence", JStr "12")])
           eq_refl eq_refl eq_refl eq_refl).
Defined.

Lemma checkTxHash_outcomes_witness :
  checkTxHash demo_node (JStr "A0") JUndefined demo_ready =
    (Normal (JObj [("txhash", JStr "A0"); ("code", JNum 0)]),
     logged (tx_getTx (JStr "/txs/A0") demo_url (JNum 10000)) demo_ready)
  /\ checkTxHash demo_node (JStr "B5") JUndefined demo_ready =
       (Normal (JObj [("txhash", JStr "B5"); ("code", JNum 5);
                      ("raw_log", JStr "out of gas")]),
        mkStore (this demo_ready)
                (mkWorld (calls (world demo_ready)
                          ++ [tx_getTx (JStr "/txs/B5") demo_url (JNum 10000)])
                         [newline ++ "Error: tx not accepted by chain: "
                          ++ dquote ++ "out of gas" ++ dquote]))
  /\ checkTxHash demo_node (JStr "ZZ") JUndefined demo_ready =
       (Throw (new_Error "tx not found: Error: Request failed with status code 404"),
        logged (tx_getTx (JStr "/txs/ZZ") demo_url (JNum 10000)) demo_ready).
Proof.
  split; [|split].
  - exact (proj1 (checkTxHash_outcomes demo_node (JStr "A0") JUndefined demo_ready)
                 _ eq_refl eq_refl).
  - refine (proj1 (proj2 (checkTxHash_outcomes demo_node (JStr "B5") JUndefined
                                               demo_ready))
                  _ 5%Z eq_refl eq_refl _).
    discriminate.
  - exact (proj2 (proj2 (checkTxHash_outcomes demo_node (JStr "ZZ") JUndefined
                                              demo_ready))
                 _ eq_refl).
Defined.

Lemma empty_input_rejected_witness :
  js_truthy JUndefined = false
  /\ js_truthy (JStr "") = false
  /\ setChainID (JStr "") demo_ready =
       (Throw (new_Error "chainID cannot be undefined"), demo_ready)
  /\ setAccountNumber JUndefined demo_ready =
       (Throw (new_Error "account number cannot be undefined"), demo_ready)
  /\ setBroadcastMode JUndefined demo_ready =
       (Throw (new_Error "broadcast mode cannot be undefined"), demo_ready)
  /\ setWallet demo_node JUndefined JUndefined JUndefined demo_ready =
       (Throw (new_Error "mnemonic cannot be undefined"), demo_ready)
  /\ new_SeeleClient demo_node JUndefined empty_world =
       (Throw (new_Error "Seele server should not be null"), empty_world).
Proof.
  pose proof (empty_input_rejected demo_node JUndefined demo_ready eq_refl) as U.
  pose proof (empty_input_rejected demo_node (JStr "") demo_ready eq_refl) as E.
  split; [reflexivity|]. split; [reflexivity|].
  split; [exact (proj1 E)|].
  split; [exact (proj1 (proj2 U))|].
  split; [exact (proj1 (proj2 (proj2 U)))|].
  split; [exact (proj1 (proj2 (proj2 (proj2 U))) JUndefined JUndefined)|].
  exact (proj2 (proj2 (proj2 (proj2 U))) empty_world).
Defined.

(** C6, as the spec states it, fails: the one-element array [['block']] is
    none of the three strings, and [setBroadcastMode] accepts it and
    replaces the stored mode. *)
Lemma setBroadcastMode_accepts_array :
  broadcastMode (this demo_ready) = JStr "sync"
  /\ is_throw (fst (setBroadcastMode (JArr [JStr "block"]) demo_ready)) = false
  /\ broadcastMode (this (exec (setBroadcastMode (JArr [JStr "block"])) demo_ready))
       = JStr "block".
Proof. repeat split. Qed.

Lemma setBroadcastMode_accepts_modes_witness :
  (exists c',
      setBroadcastMode (JStr "block") demo_ready = (Normal c', mkStore c' (world demo_ready))
      /\ broadcastMode c' = JStr "block"
      /\ baseURI c' = baseURI (this demo_ready)
      /\ hard c' = hard (this demo_ready)
      /\ chainID c' = chainID (this demo_ready)
      /\ accNum c' = accNum (this demo_ready)
      /\ wallet c' = wallet (this demo_ready))
  /\ setBroadcastMode (JStr "fast") demo_ready =
       (Throw (new_Error "invalid broadcast mode "), demo_ready)
  /\ setBroadcastMode (JNum 0) demo_ready =
       (Throw (new_Error "broadcast mode cannot be undefined"), demo_ready)
  /\ (exists c',
        setBroadcastMode (JArr [JStr "async"]) demo_ready
          = (Normal c', mkStore c' (world demo_ready))
        /\ broadcastMode c' = JStr "async"
        /\ baseURI c' = baseURI (this demo_ready)
        /\ hard c' = hard (this demo_ready)
        /\ chainID c' = chainID (this demo_ready)
        /\ accNum c' = accNum (this demo_ready)
        /\ wallet c' = wallet (this demo_ready)).
Proof.
  split; [|split; [|split]].
  4:{ exact (proj1 (setBroadcastMode_accepts_modes (JArr [JStr "async"]) demo_ready)
                   "async" (or_introl eq_refl) (or_intror eq_refl)). }
  - exact (proj1 (setBroadcastMode_accepts_modes (JStr "block") demo_ready)
                 "block" (or_intror (or_intror eq_refl)) (or_introl eq_refl)).
  - refine (proj2 (setBroadcastMode_accepts_modes (JStr "fast") demo_ready)
                  eq_refl _ _ _); discriminate.
  - refine (proj2 (setBroadcastMode_accepts_modes (JNum 0) demo_ready)
                  eq_refl _ _ _); discriminate.
Defined.

(** C7, as the spec states it, fails: against a node whose node-info answer
    names no network, two calls of [initChain] in a row both complete and
    make two node-info queries. *)
Lemma initChain_twice_two_queries :
  count_calls is_node_info_query (calls (world (fresh nameless_node demo_url))) = 0%nat
  /\ is_throw (fst (initChain nameless_node (fresh nameless_node demo_url))) = false
  /\ is_throw (fst (initChain nameless_node
                              (exec (initChain nameless_node)
                                    (fresh nameless_node demo_url)))) = false
  /\ count_calls is_node_info_query
                 (calls (world (exec (initChain nameless_node)
                                     (exec (initChain nameless_node)
                                           (fresh nameless_node demo_url))))) = 2%nat.
Proof. repeat split. Qed.

Lemma initChain_idempotent_once_set_witness :
  initChain demo_node demo_ready = (Normal (this demo_ready), demo_ready)
  /\ chainID (this (exec (initChain demo_node) (fresh demo_node demo_url)))
       = JStr "seele-testnet-1"
  /\ exec (initChain demo_node) (exec (initChain demo_node) (fresh demo_node demo_url))
       = exec (initChain demo_node) (fresh demo_node demo_url)
  /\ (count_calls is_node_info_query
                  (calls (world (exec (initChain demo_node)
                                      (exec (initChain demo_node)
                                            (fresh demo_node demo_url)))))
      <= 1 + count_calls is_node_info_query
                         (calls (world (fresh demo_node demo_url))))%nat
  /\ count_calls is_node_info_query
                 (calls (world (snd (initChain_begin
                                       demo_node
                                       (snd (initChain_begin
                                               demo_node (fresh demo_node demo_url)))))))
     = 2%nat.
Proof.
  split.
  - exact (proj1 (initChain_idempotent_once_set demo_node demo_ready) eq_refl).
  - split; [reflexivity|].
    pose proof (proj1 (proj2 (initChain_idempotent_once_set
                                demo_node (fresh demo_node demo_url)))
                      _ _ _ _ eq_refl eq_refl eq_refl) as W.
    split; [exact (proj1 (proj2 W))|]. split; [exact (proj2 (proj2 W))|].
    exact (proj2 (proj2 (proj2 (proj2 (initChain_idempotent_once_set
                                           demo_node (fresh demo_node demo_url)))))
                 eq_refl).
Defined.

Lemma transfer_sends_once_witness :
  js_prop (wallet (this demo_ready)) "address" = Normal demo_address
  /\ demo_node (calls (world demo_ready))
               (msg_cosmos_newMsgSend demo_address demo_recipient demo_coins)
       = Normal demo_msgSend
  /\ transfer demo_node demo_recipient demo_coins JUndefined JUndefined demo_ready =
       sendTx demo_node (JArr [demo_msgSend])
              (JObj [("amount", JArr []); ("gas", JStr "300000")]) JNull
              (mkStore (this demo_ready)
                       (mkWorld (calls (world demo_ready)
                                 ++ [msg_cosmos_newMsgSend demo_address demo_recipient
                                                           demo_coins])
                                (console (world demo_ready))))
  /\ transfer demo_node demo_recipient demo_coins demo_fee (JStr "9") demo_ready =
       sendTx demo_node (JArr [demo_msgSend]) demo_fee (JStr "9")
              (mkStore (this demo_ready)
                       (mkWorld (calls (world demo_ready)
                                 ++ [msg_cosmos_newMsgSend demo_address demo_recipient
                                                           demo_coins])
                                (console (world demo_ready))))
  /\ (exists tail,
        calls (world (exec (transfer demo_node demo_recipient demo_coins
                                     demo_fee (JStr "9")) demo_ready)) =
          (calls (world demo_ready)
           ++ msg_cosmos_newMsgSend demo_address demo_recipient demo_coins
           :: msg_cosmos_newStdTx (JArr [demo_msgSend]) demo_fee
           :: tail)%list
        /\ Forall (fun c => is_builder_call c = false) tail).
Proof.
  split; [reflexivity|]. split; [reflexivity|].
  pose proof (transfer_sends_once demo_node demo_recipient demo_coins
                                  JUndefined JUndefined demo_ready
                                  demo_address demo_msgSend eq_refl eq_refl) as D.
  pose proof (transfer_sends_once demo_node demo_recipient demo_coins
                                  demo_fee (JStr "9") demo_ready
                                  demo_address demo_msgSend eq_refl eq_refl) as W.
  split; [exact (proj1 D)|].
  split; [exact (proj1 W)|exact (proj2 W)].
Defined.

(** The fee and the sequence passed to [transfer] are the ones signed and
    sent on. *)
Example transfer_passes_fee_and_sequence :
  filter is_builder_call
         (calls (world (exec (transfer demo_node demo_recipient demo_coins
                                       demo_fee (JStr "9")) demo_manual)))
    = [msg_cosmos_newMsgSend demo_address demo_recipient demo_coins;
       msg_cosmos_newStdTx (JArr [demo_msgSend])
                           (JObj [("amount", demo_coins); ("gas", JStr "200000")])]
  /\ existsb (fun c => match c with
                       | tx_signTx _ info _ =>
                           js_String (js_field info "sequence") =? "9"
                       | _ => false
                       end)
             (calls (world (exec (transfer demo_node demo_recipient demo_coins
                                           demo_fee (JStr "9")) demo_manual)))
     = true.
Proof. split; reflexivity. Qed.

Lemma falsy_sequence_is_absent_witness :
  js_prop (wallet (this demo_manual)) "address" = Normal demo_address
  /\ (exists info,
        prepareSignInfo demo_node (JNum 0) demo_manual =
          (Normal info,
           mkStore (this demo_manual)
                   (mkWorld (calls (world demo_manual)
                             ++ [tx_loadMetaData demo_address demo_url])
                            (console (world demo_manual))))
        /\ js_field info "sequence" = JStr "12"
        /\ js_field info "account_number" = JStr "5"
        /\ js_field info "chain_id" = JStr "seele-1")
  /\ calls (world (exec (prepareSignInfo demo_node (JStr "")) demo_manual)) =
       (calls (world demo_manual) ++ [tx_loadMetaData demo_address demo_url])%list
  /\ exists tail,
       calls (world (exec (transfer demo_node demo_recipient demo_coins
                                    JUndefined JUndefined) demo_manual)) =
         (calls (world demo_manual)
          ++ [msg_cosmos_newMsgSend demo_address demo_recipient demo_coins;
              msg_cosmos_newStdTx (JArr [demo_msgSend]) DEFAULT_FEE;
              tx_loadMetaData demo_address demo_url]
          ++ tail)%list.
Proof.
  pose proof (falsy_sequence_is_absent demo_node demo_manual) as [_ [W [_ T]]].
  split; [reflexivity|].
  split; [exact (proj2 (W (JNum 0) demo_address eq_refl eq_refl)
                       _ eq_refl eq_refl eq_refl)|].
  split; [exact (proj1 (W (JStr "") demo_address eq_refl eq_refl))|].
  exact (T demo_recipient demo_coins JUndefined demo_address demo_msgSend _
           eq_refl eq_refl eq_refl).
Defined.

Lemma constructed_defaults_witness :
  new_SeeleClient demo_node demo_url empty_world =
    (Normal (this (fresh demo_node demo_url)), world (fresh demo_node demo_url))
  /\ broadcastMode (this (fresh demo_node demo_url)) = JStr "sync"
  /\ chainID (this (fresh demo_node demo_url)) = JUndefined
  /\ wallet (this (fresh demo_node demo_url)) = JUndefined
  /\ accNum (this (fresh demo_node demo_url)) = JUndefined
  /\ broadcastMode (this (run_ops demo_node demo_session (fresh demo_node demo_url)))
       = JStr "sync"
  /\ exists evs,
       calls (world (run_ops demo_node demo_session (fresh demo_node demo_url))) =
         (calls (world (fresh demo_node demo_url)) ++ evs)%list
       /\ Forall (broadcasts_with (JStr "sync")) evs.
Proof.
  pose proof (constructed_defaults
                demo_node demo_url empty_world
                (world (fresh demo_node demo_url))
                (this (fresh demo_node demo_url)) eq_refl)
    as [W1 [W2 [W3 [W4 W5]]]].
  split; [reflexivity|].
  split; [exact W1|]. split; [exact W2|]. split; [exact W3|]. split; [exact W4|].
  exact (W5 demo_session).
Defined.

(** The session above does broadcast, once, and in mode ["sync"]. *)
Example demo_session_broadcasts :
  filter (fun c => match c with tx_broadcastTx _ _ _ => true | _ => false end)
         (calls (world (run_ops demo_node demo_session (fresh demo_node demo_url))))
  = [tx_broadcastTx
       (JObj [("tx", JObj [("type", JStr "cosmos-sdk/StdTx");
                           ("value", JObj [("msg", JArr [demo_msgSend]);
                                           ("fee", DEFAULT_FEE);
                                           ("signatures", JNull);
                                           ("memo", JStr "")])]);
              ("signed_with", mkSignInfo (JStr "seele-testnet-1") (JStr "7") (JStr "12"))])
       demo_url (JStr "sync")].
Proof. reflexivity. Qed.

(** ** Worked examples for the further properties *)

Lemma session_mode_always_valid_witness :
  new_SeeleClient demo_node demo_url empty_world =
    (Normal (this (fresh demo_node demo_url)), world (fresh demo_node demo_url))
  /\ forallb string_modes demo_session_async = true
  /\ is_mode_name (broadcastMode
                     (this (run_calls demo_node demo_session_async
                                      (fresh demo_node demo_url))))
  /\ exists evs,
       calls (world (run_calls demo_node demo_session_async (fresh demo_node demo_url)))
         = (calls (world (fresh demo_node demo_url)) ++ evs)%list
       /\ Forall broadcasts_in_a_mode evs.
Proof.
  split; [reflexivity|]. split; [reflexivity|].
  exact (session_mode_always_valid
           demo_node demo_url empty_world (world (fresh demo_node demo_url))
           (this (fresh demo_node demo_url)) demo_session_async eq_refl eq_refl).
Defined.

(** The session above ends in mode ["async"], the refused ["fast"] having
    changed nothing, and broadcasts in it. *)
Example demo_session_async_mode :
  broadcastMode (this (run_calls demo_node demo_session_async (fresh demo_node demo_url)))
    = JStr "async"
  /\ map (fun c => match c with tx_broadcastTx _ _ mode => mode | _ => JUndefined end)
         (filter is_broadcastTx
                 (calls (world (run_calls demo_node demo_session_async
                                          (fresh demo_node demo_url)))))
     = [JStr "async"].
Proof. split; reflexivity. Qed.

(** The session above ends in mode ["block"], and broadcasts in it. *)
Example demo_session_block_mode :
  broadcastMode (this (run_calls demo_node demo_session_block (fresh demo_node demo_url)))
    = JStr "block"
  /\ map (fun c => match c with tx_broadcastTx _ _ mode => mode | _ => JUndefined end)
         (filter is_broadcastTx
                 (calls (world (run_calls demo_node demo_session_block
                                          (fresh demo_node demo_url)))))
     = [JStr "block"].
Proof. split; reflexivity. Qed.

Lemma session_talks_to_one_node_witness :
  new_SeeleClient demo_node demo_url empty_world =
    (Normal (this (fresh demo_node demo_url)), world (fresh demo_node demo_url))
  /\ baseURI (this (run_calls demo_node demo_session_block (fresh demo_node demo_url)))
       = demo_url
  /\ exists evs,
       calls (world (run_calls demo_node demo_session_block (fresh demo_node demo_url)))
         = (calls (world (fresh demo_node demo_url)) ++ evs)%list
       /\ Forall (goes_to demo_url) evs.
Proof.
  split; [reflexivity|].
  exact (session_talks_to_one_node
           demo_node demo_url empty_world (world (fresh demo_node demo_url))
           (this (fresh demo_node demo_url)) eq_refl demo_session_block).
Defined.

Lemma readers_leave_client_untouched_witness :
  forallb is_reader demo_reads = true
  /\ this (run_ops demo_node demo_reads demo_ready) = this demo_ready
  /\ exists evs,
       calls (world (run_ops demo_node demo_reads demo_ready))
         = (calls (world demo_ready) ++ evs)%list.
Proof.
  split; [reflexivity|].
  exact (readers_leave_client_untouched demo_node demo_reads demo_ready eq_refl).
Defined.

(** A block query against a node whose answer has no [data]: [undefined],
    and no throw. *)
Example getLatestBlock_without_data :
  fst (getLatestBlock odd_node JUndefined demo_ready) = Normal JUndefined
  /\ fst (getBlock down_node (JNum 12) JUndefined demo_ready)
       = Throw (new_Error "connect ECONNREFUSED 127.0.0.1:1317")
  /\ calls (world (exec (getValidatorSet demo_node (JNum 12) JUndefined) demo_ready))
       = (calls (world demo_ready)
          ++ [tx_getTx (JStr "/validatorsets//12") demo_url (JNum 2000)])%list.
Proof. repeat split. Qed.

Lemma checkTxHash_on_any_answer_witness :
  checkTxHash odd_node (JStr "S0") JUndefined demo_ready =
    (Normal (JObj [("txhash", JStr "S0"); ("code", JStr "0")]),
     mkStore (this demo_ready)
             (mkWorld (calls (world demo_ready)
                       ++ [tx_getTx (JStr "/txs/S0") demo_url (JNum 10000)])
                      [newline ++ "Error: tx not accepted by chain: "
                       ++ dquote ++ "undefined" ++ dquote]))
  /\ checkTxHash odd_node (JStr "OK") JUndefined demo_ready =
       (Normal (JObj [("txhash", JStr "OK"); ("height", JStr "7")]),
        logged (tx_getTx (JStr "/txs/OK") demo_url (JNum 10000)) demo_ready)
  /\ checkTxHash odd_node (JStr "GONE") JUndefined demo_ready =
       (Throw (new_TypeError "Cannot read properties of null (reading 'data')"),
        logged (tx_getTx (JStr "/txs/GONE") demo_url (JNum 10000)) demo_ready).
Proof.
  split; [|split].
  - exact (checkTxHash_on_any_answer odd_node (JStr "S0") JUndefined demo_ready
                                     _ eq_refl).
  - exact (checkTxHash_on_any_answer odd_node (JStr "OK") JUndefined demo_ready
                                     _ eq_refl).
  - exact (checkTxHash_on_any_answer odd_node (JStr "GONE") JUndefined demo_ready
                                     _ eq_refl).
Defined.

Lemma unset_wallet_behaviour_witness :
  js_prop (wallet (this (fresh demo_node demo_url))) "address" = Throw no_address_error
  /\ transfer demo_node demo_recipient demo_coins JUndefined JUndefined
              (fresh demo_node demo_url)
       = (Throw no_address_error, fresh demo_node demo_url)
  /\ prepareSignInfo demo_node (JStr "2") (fresh demo_node demo_url)
       = (Throw no_address_error, fresh demo_node demo_url)
  /\ is_throw (fst (sendTx demo_node (JArr []) DEFAULT_FEE JUndefined
                            (fresh demo_node demo_url))) = true.
Proof.
  pose proof (unset_wallet_behaviour demo_node (fresh demo_node demo_url)
                                     no_address_error eq_refl) as [T [P [S _]]].
  split; [reflexivity|].
  split; [exact (T demo_recipient demo_coins JUndefined JUndefined)|].
  split; [exact (P (JStr "2") eq_refl)|].
  now rewrite (S (JArr []) DEFAULT_FEE JUndefined _ eq_refl eq_refl).
Defined.

Lemma sendTx_returns_broadcast_answer_witness :
  fst (sendTx demo_node (JArr [demo_msgSend]) DEFAULT_FEE (JStr "2") demo_manual)
    = Normal (JObj [("data", JObj [("txhash", JStr "C1"); ("height", JStr "0")])])
  /\ this (exec (sendTx demo_node (JArr [demo_msgSend]) DEFAULT_FEE (JStr "2"))
                demo_manual) = this demo_manual
  /\ console (world (exec (sendTx demo_node (JArr [demo_msgSend]) DEFAULT_FEE (JStr "2"))
                          demo_manual)) = console (world demo_manual)
  /\ exists prefix signedTx,
       calls (world (exec (sendTx demo_node (JArr [demo_msgSend]) DEFAULT_FEE (JStr "2"))
                          demo_manual))
         = (prefix ++ [tx_broadcastTx signedTx demo_url (JStr "sync")])%list
       /\ demo_node prefix (tx_broadcastTx signedTx demo_url (JStr "sync"))
            = Normal (JObj [("data", JObj [("txhash", JStr "C1"); ("height", JStr "0")])]).
Proof.
  split; [reflexivity|].
  exact (sendTx_returns_broadcast_answer
           demo_node (JArr [demo_msgSend]) DEFAULT_FEE (JStr "2") demo_manual
           (exec (sendTx demo_node (JArr [demo_msgSend]) DEFAULT_FEE (JStr "2"))
                 demo_manual)
           _ eq_refl).
Defined.

Lemma sendTx_throws_unwrapped_witness :
  fst (sendTx down_node (JArr [demo_msgSend]) DEFAULT_FEE JUndefined demo_ready)
    = Throw (new_Error "connect ECONNREFUSED 127.0.0.1:1317")
  /\ this (exec (sendTx down_node (JArr [demo_msgSend]) DEFAULT_FEE JUndefined)
                demo_ready) = this demo_ready
  /\ ((exists prefix call,
         calls (world (exec (sendTx down_node (JArr [demo_msgSend]) DEFAULT_FEE
                                    JUndefined) demo_ready))
           = (prefix ++ [call])%list
         /\ down_node prefix call
              = Throw (new_Error "connect ECONNREFUSED 127.0.0.1:1317"))
      \/ (exists v k,
            js_prop v k = Throw (new_Error "connect ECONNREFUSED 127.0.0.1:1317"))).
Proof.
  split; [reflexivity|].
  exact (sendTx_throws_unwrapped
           down_node (JArr [demo_msgSend]) DEFAULT_FEE JUndefined demo_ready
           (exec (sendTx down_node (JArr [demo_msgSend]) DEFAULT_FEE JUndefined)
                 demo_ready)
           _ eq_refl).
Defined.

Lemma setWallet_derives_or_keeps_witness :
  js_truthy demo_mnemonic = true
  /\ calls (world (exec (setWallet demo_node demo_mnemonic JUndefined (JNum 1))
                        (fresh demo_node demo_url)))
       = (calls (world (fresh demo_node demo_url))
          ++ [sig_createWalletFromMnemonic demo_mnemonic (JStr "") (JStr "seele")
                                           (JStr "m/44'/118'/0'/0/0")])%list
  /\ calls (world (exec (setWallet demo_node demo_mnemonic (JStr "pw") JUndefined)
                        (fresh demo_node demo_url)))
       = (calls (world (fresh demo_node demo_url))
          ++ [sig_createWalletFromMnemonic demo_mnemonic (JStr "pw") (JStr "seele")
                                           (JStr "m/44'/513'/0'/0/0")])%list
  /\ wallet (this (exec (setWallet demo_node demo_mnemonic (JStr "pw") JUndefined)
                        (fresh demo_node demo_url))) = demo_wallet
  /\ chainID (this (exec (setWallet demo_node demo_mnemonic (JStr "pw") JUndefined)
                         (fresh demo_node demo_url)))
       = chainID (this (fresh demo_node demo_url)).
Proof.
  pose proof (setWallet_derives_or_keeps demo_node demo_mnemonic JUndefined (JNum 1)
                                         (fresh demo_node demo_url) eq_refl) as L.
  pose proof (setWallet_derives_or_keeps demo_node demo_mnemonic (JStr "pw") JUndefined
                                         (fresh demo_node demo_url) eq_refl) as P.
  cbv zeta in L, P.
  split; [reflexivity|].
  split; [exact (proj1 L)|].
  split; [exact (proj1 P)|].
  pose proof (proj2 (proj2 P) demo_wallet eq_refl) as W.
  split; [exact (proj1 (proj2 W))|].
  exact (proj1 (proj2 (proj2 (proj2 (proj2 (proj2 W)))))).
Defined.

Lemma initChain_failure_retries_witness :
  js_truthy (chainID (this (fresh demo_node demo_url))) = false
  /\ initChain down_node (fresh demo_node demo_url) =
       (Throw (new_Error "connect ECONNREFUSED 127.0.0.1:1317"),
        mkStore (this (fresh demo_node demo_url))
                (mkWorld (calls (world (fresh demo_node demo_url))
                          ++ [tx_getTx (JStr "/node_info") demo_url JUndefined])
                         (console (world (fresh demo_node demo_url)))))
  /\ calls (world (exec (initChain down_node)
                        (exec (initChain down_node) (fresh demo_node demo_url))))
       = (calls (world (fresh demo_node demo_url))
          ++ [tx_getTx (JStr "/node_info") demo_url JUndefined;
              tx_getTx (JStr "/node_info") demo_url JUndefined])%list
  /\ chainID (this (exec (initChain demo_node) (fresh demo_node demo_url)))
       = JStr "seele-testnet-1"
  /\ baseURI (this (exec (initChain demo_node) (fresh demo_node demo_url))) = demo_url
  /\ chainID (this (exec (initChain nameless_node) (fresh demo_node demo_url)))
       = JUndefined.
Proof.
  split; [reflexivity|].
  pose proof (proj1 (initChain_failure_retries down_node (fresh demo_node demo_url)
                                               eq_refl)
                    _ eq_refl) as F.
  pose proof (proj2 (initChain_failure_retries demo_node (fresh demo_node demo_url)
                                               eq_refl)
                    _ eq_refl eq_refl) as S.
  pose proof (proj2 (initChain_failure_retries nameless_node (fresh demo_node demo_url)
                                               eq_refl)
                    _ eq_refl eq_refl) as N.
  split; [exact (proj1 F)|]. split; [exact (proj2 F)|].
  split; [exact (proj1 S)|]. split; [exact (proj1 (proj2 S))|].
  exact (proj1 N).
Defined.

Lemma setAccountNumber_takes_precedence_witness :
  setAccountNumber (JNum 5) demo_ready =
    (Normal (set_accNum (JStr "5") (this demo_ready)),
     mkStore (set_accNum (JStr "5") (this demo_ready)) (world demo_ready))
  /\ prepareSignInfo demo_node (JStr "2")
                     (mkStore (set_accNum (JStr "5") (this demo_ready)) (world demo_ready))
       = (Normal (mkSignInfo (JStr "seele-1") (JStr "5") (JStr "2")),
          mkStore (set_accNum (JStr "5") (this demo_ready)) (world demo_ready))
  /\ js_field (mkSignInfo (JStr "seele-1") (JStr "5") (JStr "12")) "account_number"
       = JStr "5".
Proof.
  pose proof (setAccountNumber_takes_precedence
                demo_node (JNum 5) demo_ready
                (mkStore (set_accNum (JStr "5") (this demo_ready)) (world demo_ready))
                (set_accNum (JStr "5") (this demo_ready)) eq_refl)
    as [_ [_ [F M]]].
  split; [reflexivity|].
  split; [exact (M (JStr "2") eq_refl)|].
  exact (F JUndefined _ _ eq_refl).
Defined.

Lemma chainID_sticks_witness :
  js_truthy (chainID (this demo_ready)) = true
  /\ forallb no_setChainID demo_session_block = true
  /\ chainID (this (run_calls demo_node demo_session_block demo_ready)) = JStr "seele-1"
  /\ exists evs,
       calls (world (run_calls demo_node demo_session_block demo_ready))
         = (calls (world demo_ready) ++ evs)%list
       /\ Forall (fun call => is_node_info_query call = false) evs.
Proof.
  split; [reflexivity|]. split; [reflexivity|].
  exact (chainID_sticks demo_node demo_session_block demo_ready eq_refl eq_refl).
Defined.
